(** * airflow/sensors/external_task.py: ExternalTaskSensor and ExternalTaskMarker

    A shallow embedding of the sensor that waits for a DAG (or for tasks of a
    DAG) at given logical dates, and of the marker operator declared next to
    it, followed by the properties their specification states about them.

    Conventions of the embedding.
    - A [datetime] is an integer number of microseconds on the UTC time line
      and a [timedelta] an integer number of microseconds; [datetime -
      timedelta] is integer subtraction (the range limits of Python's
      datetime type are outside the model).
    - A state label is [option string]: [None] is Python's [None], which is
      SQL NULL in the state column of a row.
    - The metadata database is a record of tables (lists of rows); a session
      gives read access to it and records every query it is asked.
    - [count / len(ids)] is Python's true division; counts are modelled as
      exact rationals [Q] and compared with [Qeq_bool], which agrees with the
      comparison of the float quotient with an integer as long as the counts
      and the number of ids times the number of targets are below 2^53.
      [get_count] returns that exact quotient; [get_count_number] returns
      the number as Python represents it, an int or the binary64 double of
      the division.
    - The callable [execution_date_fn] is a total function of the context.
    - A raise is a value of [exn], one constructor per raise site, carrying
      the values the message interpolates. *)

From Stdlib Require Import List String Bool ZArith QArith Lia.
From Stdlib Require ListSet.
From Stdlib Require SpecFloat.
Import ListNotations.

Local Open Scope string_scope.
Local Open Scope Z_scope.

(** ** Values shared by both operators *)

Definition datetime := Z.
Definition timedelta := Z.
Definition StateLabel := option string.

Definition state_eqb (a b : StateLabel) : bool :=
  match a, b with
  | None, None => true
  | Some x, Some y => String.eqb x y
  | _, _ => false
  end.

(** [x in xs] for Python lists and sets of strings, of states, of datetimes. *)
Definition str_in (x : string) (xs : list string) : bool :=
  existsb (String.eqb x) xs.
Definition state_in (x : StateLabel) (xs : list StateLabel) : bool :=
  existsb (state_eqb x) xs.
Definition dt_in (x : datetime) (xs : list datetime) : bool :=
  existsb (Z.eqb x) xs.

(** [len(set(xs))]: the number of distinct elements. *)
Definition len_set (xs : list string) : nat :=
  List.length (nodup string_dec xs).

(** [a <= set(b)] where [a] is a set of states. *)
Definition states_subset (a b : list StateLabel) : bool :=
  forallb (fun x => state_in x b) a.

(** [set(failed).intersection(set(allowed))] is non-empty. *)
Definition states_intersect (failed allowed : list StateLabel) : bool :=
  existsb (fun x => state_in x allowed) failed.

(** The members of [airflow.utils.state.State] the sensor reads.  The class
    is defined outside this file, so its constants are parameters. *)
Module State.
Record t := mk {
  SUCCESS : StateLabel;
  task_states : list StateLabel;
  dag_states : list StateLabel
}.
End State.

(** What the value a callable returns, or the value of [execution_date], can
    be as far as [isinstance] tells them apart. *)
Inductive dttm_value :=
| DtOne (d : datetime)
| DtList (ds : list datetime).

Record Context := mkContext {
  logical_date : datetime;
  other_entries : list (string * string)
}.

(** ** Exceptions, one constructor per raise site *)

Inductive exn :=
(* ExternalTaskSensor.__init__ *)
| DuplicateStates (allowed failed : list StateLabel)   (* AirflowException *)
| OnlyOneTaskIdForm                                    (* ValueError *)
| InvalidTaskStates (valid : list StateLabel)          (* ValueError *)
| DuplicateTaskIds                                     (* ValueError *)
| InvalidDagStates (valid : list StateLabel)           (* ValueError *)
| OnlyOneDateForm                                      (* ValueError *)
(* ExternalTaskSensor.poke *)
| ExternalTasksFailed (task_ids : list string) (dag_id : string)
| ExternalDagFailed (dag_id : string)
(* ExternalTaskSensor._check_for_existence *)
| DagDoesNotExist (dag_id : string)
| DagWasDeleted (dag_id : string)
| TaskDoesNotExist (task_id dag_id : string)
| NoneHasNoTask                                        (* AttributeError *)
(* ExternalTaskMarker.__init__ *)
| ExecutionDateType                                    (* TypeError *)
| RecursionDepthNotPositive.                           (* ValueError *)

Inductive result (A : Type) :=
| Ok (a : A)
| Raise (e : exn).
Arguments Ok {A} a.
Arguments Raise {A} e.

(** ** The metadata database and the host *)

Record DagModel := mkDagModel {
  dm_dag_id : string;
  fileloc : string
}.

Record TaskInstance := mkTI {
  ti_dag_id : string;
  ti_task_id : string;
  ti_state : StateLabel;
  ti_execution_date : datetime
}.

Record DagRun := mkDR {
  dr_dag_id : string;
  dr_state : StateLabel;
  dr_execution_date : datetime
}.

Record World := mkWorld {
  dag_models : list DagModel;
  task_instances : list TaskInstance;
  dag_runs : list DagRun;
  (* os.path.exists *)
  path_exists : string -> bool;
  (* DagBag(fileloc).get_dag(dag_id): the task ids of the parsed DAG *)
  dagbag_get_dag : string -> string -> option (list string)
}.

(** The queries a session is asked. *)
Inductive Query :=
| QFirstDagModel (dag_id : string)
| QCountTI (dag_id : string) (task_ids : list string)
           (states : list StateLabel) (dates : list datetime)
| QCountDR (dag_id : string) (states : list StateLabel) (dates : list datetime).

Record Session := mkSession {
  db : World;
  issued : list Query
}.

Definition new_session (w : World) : Session := mkSession w [].

Definition record_query (q : Query) (s : Session) : Session :=
  mkSession (db s) (issued s ++ [q])%list.

(** [state IN (...)]: a NULL state matches no list, also one holding NULL. *)
Definition sql_state_in (st : StateLabel) (states : list StateLabel) : bool :=
  match st with
  | None => false
  | Some _ => state_in st states
  end.

(** [session.query(DagModel).filter(DagModel.dag_id == dag_id).first()] *)
Definition query_first_dag_model (s : Session) (dag_id : string)
  : option DagModel * Session :=
  (find (fun m => String.eqb (dm_dag_id m) dag_id) (dag_models (db s)),
   record_query (QFirstDagModel dag_id) s).

(** [session.query(func.count()).filter(TI.dag_id == ..., TI.task_id.in_(...),
    TI.state.in_(...), TI.execution_date.in_(...)).scalar()] *)
Definition ti_matches (dag_id : string) (task_ids : list string)
  (states : list StateLabel) (dates : list datetime) (r : TaskInstance) : bool :=
  String.eqb (ti_dag_id r) dag_id
  && str_in (ti_task_id r) task_ids
  && sql_state_in (ti_state r) states
  && dt_in (ti_execution_date r) dates.

Definition query_count_ti (s : Session) (dag_id : string) (task_ids : list string)
  (states : list StateLabel) (dates : list datetime) : Z * Session :=
  (Z.of_nat (List.length
     (filter (ti_matches dag_id task_ids states dates) (task_instances (db s)))),
   record_query (QCountTI dag_id task_ids states dates) s).

(** The same over [DagRun]. *)
Definition dr_matches (dag_id : string) (states : list StateLabel)
  (dates : list datetime) (r : DagRun) : bool :=
  String.eqb (dr_dag_id r) dag_id
  && sql_state_in (dr_state r) states
  && dt_in (dr_execution_date r) dates.

Definition query_count_dr (s : Session) (dag_id : string)
  (states : list StateLabel) (dates : list datetime) : Z * Session :=
  (Z.of_nat (List.length
     (filter (dr_matches dag_id states dates) (dag_runs (db s)))),
   record_query (QCountDR dag_id states dates) s).

(** Truth value of an optional collection: [None] and the empty one are
    false. *)
Definition truthy {A} (o : option (list A)) : bool :=
  match o with
  | Some (_ :: _) => true
  | _ => false
  end.

Definition items {A} (o : option (list A)) : list A :=
  match o with
  | Some l => l
  | None => []
  end.

Definition is_some {A} (o : option A) : bool :=
  match o with Some _ => true | None => false end.

(** ** A state-and-exception monad for the methods of an object

    A method runs on a machine state (the object and the session it was
    given); a raise stops the method and keeps the state reached. *)

Section Monad.
Variable S : Type.

Definition M (A : Type) : Type := S -> result A * S.

Definition ret {A} (a : A) : M A := fun s => (Ok a, s).
Definition raise {A} (e : exn) : M A := fun s => (Raise e, s).
Definition bind {A B} (m : M A) (k : A -> M B) : M B :=
  fun s => match m s with
           | (Ok a, s') => k a s'
           | (Raise e, s') => (Raise e, s')
           end.
Definition get : M S := fun s => (Ok s, s).
Definition modify (f : S -> S) : M unit := fun s => (Ok tt, f s).
End Monad.

Arguments ret {S A} a.
Arguments raise {S A} e.
Arguments bind {S A B} m k.
Arguments get {S}.
Arguments modify {S} f.

Declare Scope monad_scope.
Delimit Scope monad_scope with monad.
Notation "x <- m ;; k" := (bind m (fun x => k))
  (at level 61, m at next level, right associativity) : monad_scope.
Notation "m ;; k" := (bind m (fun _ => k))
  (at level 61, right associativity) : monad_scope.

(** [if cond: raise e] *)
Definition raise_if {S} (cond : bool) (e : exn) : M S unit :=
  if cond then raise e else ret tt.

(** ** Python numbers

    An [int] is an integer; a [float] is a binary64 double, in the format of
    the library's [SpecFloat].  [a / b] on two ints below 2^53 converts both
    (exactly) and divides the doubles, rounding to nearest, ties to even. *)

Inductive py_number :=
| PyInt (z : Z)
| PyFloat (f : SpecFloat.spec_float).

Definition float_of_int (z : Z) : SpecFloat.spec_float :=
  SpecFloat.binary_normalize 53 1024 z 0 false.

Definition py_true_div (a b : Z) : SpecFloat.spec_float :=
  SpecFloat.SFdiv 53 1024 (float_of_int a) (float_of_int b).

(** The rational a finite double stands for. *)
Definition float_value (f : SpecFloat.spec_float) : option Q :=
  match f with
  | SpecFloat.S754_zero _ => Some (inject_Z 0)
  | SpecFloat.S754_finite s m e =>
      Some (inject_Z (if s then Z.neg m else Z.pos m) * Qpower (2 # 1) e)%Q
  | SpecFloat.S754_infinity _ | SpecFloat.S754_nan => None
  end.

(** [x == n] for a number [x] and an int [n]: the comparison is exact. *)
Definition py_eq_int (x : py_number) (n : Z) : bool :=
  match x with
  | PyInt z => Z.eqb z n
  | PyFloat f =>
      match float_value f with
      | Some q => Qeq_bool q (inject_Z n)
      | None => false
      end
  end.

(** ** class ExternalTaskSensor *)

Module ExternalTaskSensor.

Record t := mk {
  allowed_states : list StateLabel;
  failed_states : list StateLabel;
  execution_delta : option timedelta;
  execution_date_fn : option (Context -> dttm_value);
  external_dag_id : string;
  external_task_id : option string;
  external_task_ids : option (list string);
  check_existence : bool;
  _has_checked_existence : bool
}.

(** The keyword arguments of [__init__], defaults written by the caller.
    The state arguments are collections whose truth is their non-emptiness
    (a list, a tuple, a set). *)
Record kwargs := mk_kwargs {
  kw_external_dag_id : string;
  kw_external_task_id : option string;
  kw_external_task_ids : option (list string);
  kw_allowed_states : option (list StateLabel);
  kw_failed_states : option (list StateLabel);
  kw_execution_delta : option timedelta;
  kw_execution_date_fn : option (Context -> dttm_value);
  kw_check_existence : bool
}.

Section Init.
Variable St : State.t.

Local Open Scope monad_scope.

(** [__init__]: the constructor has no machine state of its own, it
    runs on [unit]. *)
Definition init_body (kw : kwargs) : M unit t :=
  let allowed_states :=
    if truthy (kw_allowed_states kw) then items (kw_allowed_states kw)
    else [State.SUCCESS St] in
  let failed_states :=
    if truthy (kw_failed_states kw) then items (kw_failed_states kw)
    else [] in
  let total_states := (allowed_states ++ failed_states)%list in
  raise_if (states_intersect failed_states allowed_states)
           (DuplicateStates allowed_states failed_states) ;;
  raise_if (is_some (kw_external_task_id kw)
            && is_some (kw_external_task_ids kw))
           OnlyOneTaskIdForm ;;
  let external_task_ids :=
    match kw_external_task_id kw with
    | Some task_id => Some [task_id]
    | None => kw_external_task_ids kw
    end in
  (if truthy external_task_ids then
     raise_if (negb (states_subset total_states (State.task_states St)))
              (InvalidTaskStates (State.task_states St)) ;;
     raise_if (Nat.ltb (len_set (items external_task_ids))
                       (List.length (items external_task_ids)))
              DuplicateTaskIds
   else
     raise_if (negb (states_subset total_states (State.dag_states St)))
              (InvalidDagStates (State.dag_states St))) ;;
  raise_if (is_some (kw_execution_delta kw)
            && is_some (kw_execution_date_fn kw))
           OnlyOneDateForm ;;
  ret (mk allowed_states failed_states
          (kw_execution_delta kw) (kw_execution_date_fn kw)
          (kw_external_dag_id kw) (kw_external_task_id kw)
          external_task_ids (kw_check_existence kw) false).

Definition __init__ (kw : kwargs) : result t := fst (init_body kw tt).
End Init.

(** Machine state of a method call: [self] and the session passed in. *)
Record machine := mk_machine {
  self : t;
  session : Session
}.

Definition with_session {A} (q : Session -> A * Session) : M machine A :=
  fun m => let '(a, s') := q (session m) in (Ok a, mk_machine (self m) s').

(** [self._has_checked_existence = b] *)
Definition with_has_checked_existence (b : bool) (o : t) : t :=
  mk (allowed_states o) (failed_states o) (execution_delta o)
     (execution_date_fn o) (external_dag_id o) (external_task_id o)
     (external_task_ids o) (check_existence o) b.

Definition set_has_checked_existence (b : bool) : M machine unit :=
  modify (fun m => mk_machine (with_has_checked_existence b (self m))
                              (session m)).

Local Open Scope monad_scope.

(** [_handle_execution_date_fn]: the callable receives the logical date
    and the entries of the context; here it receives the context. *)
Definition _handle_execution_date_fn (o : t) (context : Context) : dttm_value :=
  match execution_date_fn o with
  | Some fn => fn context
  | None => DtOne (logical_date context)
  end.

(** Truth value of [self.execution_delta]: [None] and [timedelta(0)] are
    false. *)
Definition delta_truthy (d : option timedelta) : bool :=
  match d with
  | Some d => negb (Z.eqb d 0)
  | None => false
  end.

(** Lines 150-155 of [poke]: the value [dttm]. *)
Definition poke_dttm (o : t) (context : Context) : dttm_value :=
  if delta_truthy (execution_delta o) then
    match execution_delta o with
    | Some d => DtOne (logical_date context - d)
    | None => DtOne (logical_date context)
    end
  else if is_some (execution_date_fn o) then
    _handle_execution_date_fn o context
  else DtOne (logical_date context).

(** Line 157: [dttm if isinstance(dttm, list) else [dttm]]. *)
Definition poke_dttm_filter (o : t) (context : Context) : list datetime :=
  match poke_dttm o context with
  | DtList l => l
  | DtOne d => [d]
  end.

(** The loop of [_check_for_existence] over [self.external_task_ids]. *)
Fixpoint check_tasks_exist (dag_id : string) (dag_tasks : option (list string))
  (ids : list string) : M machine unit :=
  match ids with
  | [] => ret tt
  | external_task_id :: rest =>
      match dag_tasks with
      | None => raise NoneHasNoTask
      | Some task_dict =>
          raise_if (negb (str_in external_task_id task_dict))
                   (TaskDoesNotExist external_task_id dag_id) ;;
          check_tasks_exist dag_id dag_tasks rest
      end
  end.

Definition _check_for_existence : M machine unit :=
  m <- get ;;
  let o := self m in
  dag_to_wait <- with_session
                   (fun s => query_first_dag_model s (external_dag_id o)) ;;
  match dag_to_wait with
  | None => raise (DagDoesNotExist (external_dag_id o))
  | Some dag_to_wait =>
      raise_if (negb (path_exists (db (session m)) (fileloc dag_to_wait)))
               (DagWasDeleted (external_dag_id o)) ;;
      (if truthy (external_task_ids o) then
         let refreshed_dag_info :=
           dagbag_get_dag (db (session m)) (fileloc dag_to_wait)
                          (external_dag_id o) in
         check_tasks_exist (external_dag_id o) refreshed_dag_info
                           (items (external_task_ids o))
       else ret tt) ;;
      set_has_checked_existence true
  end.

Definition get_count (dttm_filter : list datetime)
  (states : list StateLabel) : M machine Q :=
  m <- get ;;
  let o := self m in
  match dttm_filter with
  | [] => ret (inject_Z 0)
  | _ :: _ =>
      if truthy (external_task_ids o) then
        count <- with_session (fun s =>
                   query_count_ti s (external_dag_id o)
                     (items (external_task_ids o)) states dttm_filter) ;;
        ret (inject_Z count
             / inject_Z (Z.of_nat (List.length (items (external_task_ids o)))))%Q
      else
        count <- with_session (fun s =>
                   query_count_dr s (external_dag_id o) states dttm_filter) ;;
        ret (inject_Z count)
  end.

Definition len_Q {A} (l : list A) : Q := inject_Z (Z.of_nat (List.length l)).

(** The log line of [poke] (lines 158-165) does not change the outcome and
    is left out. *)
Definition poke (context : Context) : M machine bool :=
  m <- get ;;
  let o := self m in
  let dttm_filter := poke_dttm_filter o context in
  (if check_existence o && negb (_has_checked_existence o)
   then _check_for_existence else ret tt) ;;
  count_allowed <- get_count dttm_filter (allowed_states o) ;;
  count_failed <- (match failed_states o with
                   | [] => ret (inject_Z (-1))
                   | _ :: _ => get_count dttm_filter (failed_states o)
                   end) ;;
  (if Qeq_bool count_failed (len_Q dttm_filter) then
     if truthy (external_task_ids o) then
       raise (ExternalTasksFailed (items (external_task_ids o))
                                  (external_dag_id o))
     else raise (ExternalDagFailed (external_dag_id o))
   else ret tt) ;;
  ret (Qeq_bool count_allowed (len_Q dttm_filter)).

(** One call of [poke] by the host: [provide_session] hands the method a
    fresh session on the database as it is at that moment. *)
Definition call_poke (o : t) (context : Context) (w : World)
  : result bool * t * list Query :=
  let '(r, m) := poke context (mk_machine o (new_session w)) in
  (r, self m, issued (session m)).

(** Successive calls of [poke] on the same object; the database and the
    context may differ from call to call.  The outcome and the queries of
    every call are kept, in order. *)
Fixpoint poke_many (o : t) (calls : list (Context * World))
  : list (result bool * list Query) * t :=
  match calls with
  | [] => ([], o)
  | (context, w) :: rest =>
      let '(r, o', qs) := call_poke o context w in
      let '(outs, o'') := poke_many o' rest in
      ((r, qs) :: outs, o'')
  end.

(** [get_count] again, with the number it returns as Python has it: the
    int 0, the double of line 232, or the int count of line 234.  It asks
    the same queries as [get_count], which returns the exact quotient. *)
Definition get_count_number (dttm_filter : list datetime)
  (states : list StateLabel) : M machine py_number :=
  (m <- get ;;
   let o := self m in
   match dttm_filter with
   | [] => ret (PyInt 0)
   | _ :: _ =>
       if truthy (external_task_ids o) then
         count <- with_session (fun s =>
                    query_count_ti s (external_dag_id o)
                      (items (external_task_ids o)) states dttm_filter) ;;
         ret (PyFloat
                (py_true_div count
                   (Z.of_nat (List.length (items (external_task_ids o))))))
       else
         count <- with_session (fun s =>
                    query_count_dr s (external_dag_id o) states dttm_filter) ;;
         ret (PyInt count)
   end)%monad.

End ExternalTaskSensor.

(** ** class ExternalTaskMarker *)

Module ExternalTaskMarker.

(** The argument [execution_date] as [isinstance] sees it. *)
Inductive execution_date_arg :=
| ArgDatetime (d : datetime)
| ArgStr (s : string)
| ArgOther.                      (* None, a number, a date, ... *)

Record t := mk {
  external_dag_id : string;
  external_task_id : string;
  execution_date : string;
  recursion_depth : Z
}.

Section Init.
(** [datetime.datetime.isoformat], of the Python library. *)
Variable isoformat : datetime -> string.

Local Open Scope monad_scope.

Definition init_body (external_dag_id external_task_id : string)
  (execution_date : execution_date_arg) (recursion_depth : Z) : M unit t :=
  execution_date' <- (match execution_date with
                      | ArgDatetime d => ret (isoformat d)
                      | ArgStr s => ret s
                      | ArgOther => raise ExecutionDateType
                      end) ;;
  raise_if (recursion_depth <=? 0) RecursionDepthNotPositive ;;
  ret (mk external_dag_id external_task_id execution_date' recursion_depth).

Definition __init__ (external_dag_id external_task_id : string)
  (execution_date : execution_date_arg) (recursion_depth : Z) : result t :=
  fst (init_body external_dag_id external_task_id execution_date
                 recursion_depth tt).
End Init.

(** The class attribute [__serialized_fields] (initially [None]) is the
    state of the classmethod [get_serialized_fields]; a frozenset is a list
    read as a set.  [super().get_serialized_fields()] belongs to the parent
    class, its value is an argument. *)
Definition initial___serialized_fields : option (list string) := None.

Definition get_serialized_fields (super_fields : list string)
  : M (option (list string)) (option (list string)) :=
  (cached <- get ;;
   (if negb (truthy cached) then
      modify (fun _ =>
        Some (ListSet.set_union string_dec super_fields ["recursion_depth"]))
    else ret tt) ;;
   get)%monad.

(** Successive calls on the class; the parent may answer differently from
    call to call. *)
Fixpoint get_serialized_fields_calls (supers : list (list string))
  : M (option (list string)) (list (option (list string))) :=
  match supers with
  | [] => ret []
  | super_fields :: rest =>
      (r <- get_serialized_fields super_fields ;;
       rs <- get_serialized_fields_calls rest ;;
       ret (r :: rs))%monad
  end.

End ExternalTaskMarker.

(** ** Reading a query log *)

Definition is_existence_query (q : Query) : bool :=
  match q with QFirstDagModel _ => true | _ => false end.

Definition is_count_query (q : Query) : bool :=
  match q with QFirstDagModel _ => false | _ => true end.

(** How many times the existence check was started. *)
Definition existence_checks (qs : list Query) : nat :=
  List.length (filter is_existence_query qs).

Definition count_queries (qs : list Query) : nat :=
  List.length (filter is_count_query qs).

Definition is_not_found (e : exn) : bool :=
  match e with
  | DagDoesNotExist _ | DagWasDeleted _ | TaskDoesNotExist _ _ => true
  | _ => false
  end.

Definition raised_not_found (r : result bool) : bool :=
  match r with
  | Raise e => is_not_found e
  | Ok _ => false
  end.

(** Over the calls of [poke_many]: all queries, and the not-found raises. *)
Definition all_queries (outs : list (result bool * list Query)) : list Query :=
  flat_map snd outs.

Definition not_found_raises (outs : list (result bool * list Query)) : nat :=
  List.length (filter (fun o => raised_not_found (fst o)) outs).

(** The exceptions [_check_for_existence] can raise. *)
Definition from_existence_check (e : exn) : bool :=
  match e with
  | DagDoesNotExist _ | DagWasDeleted _ | TaskDoesNotExist _ _
  | NoneHasNoTask => true
  | _ => false
  end.

Definition raised_from_existence_check {A} (r : result A) : Prop :=
  match r with
  | Raise e => from_existence_check e = true
  | Ok _ => True
  end.

(** ** The value and the queries of [get_count], read off the database

    These restate what [get_count] returns and asks as functions of the
    object and the database; [get_count_run] below proves that the method
    computes exactly them. *)

Definition matching_ti (w : World) (dag_id : string) (task_ids : list string)
  (states : list StateLabel) (dates : list datetime) : Z :=
  Z.of_nat (List.length
    (filter (ti_matches dag_id task_ids states dates) (task_instances w))).

Definition matching_dr (w : World) (dag_id : string)
  (states : list StateLabel) (dates : list datetime) : Z :=
  Z.of_nat (List.length (filter (dr_matches dag_id states dates) (dag_runs w))).

Definition count_value (o : ExternalTaskSensor.t) (w : World)
  (dttm_filter : list datetime) (states : list StateLabel) : Q :=
  match dttm_filter with
  | [] => inject_Z 0
  | _ :: _ =>
      if truthy (ExternalTaskSensor.external_task_ids o) then
        (inject_Z (matching_ti w (ExternalTaskSensor.external_dag_id o)
                     (items (ExternalTaskSensor.external_task_ids o))
                     states dttm_filter)
         / inject_Z (Z.of_nat (List.length
                     (items (ExternalTaskSensor.external_task_ids o)))))%Q
      else
        inject_Z (matching_dr w (ExternalTaskSensor.external_dag_id o)
                    states dttm_filter)
  end.

Definition count_log (o : ExternalTaskSensor.t)
  (dttm_filter : list datetime) (states : list StateLabel) : list Query :=
  match dttm_filter with
  | [] => []
  | _ :: _ =>
      if truthy (ExternalTaskSensor.external_task_ids o) then
        [QCountTI (ExternalTaskSensor.external_dag_id o)
                  (items (ExternalTaskSensor.external_task_ids o))
                  states dttm_filter]
      else
        [QCountDR (ExternalTaskSensor.external_dag_id o) states dttm_filter]
  end.

(** The exception of lines 177-184. *)
Definition failed_exn (o : ExternalTaskSensor.t) : exn :=
  if truthy (ExternalTaskSensor.external_task_ids o) then
    ExternalTasksFailed (items (ExternalTaskSensor.external_task_ids o))
                        (ExternalTaskSensor.external_dag_id o)
  else ExternalDagFailed (ExternalTaskSensor.external_dag_id o).

(** Lines 171-186 of [poke], once the existence check is behind: the
    outcome and the queries. *)
Definition verdict (o : ExternalTaskSensor.t) (w : World)
  (dttm_filter : list datetime) : result bool :=
  let count_allowed :=
    count_value o w dttm_filter (ExternalTaskSensor.allowed_states o) in
  let count_failed :=
    match ExternalTaskSensor.failed_states o with
    | [] => inject_Z (-1)
    | _ :: _ =>
        count_value o w dttm_filter (ExternalTaskSensor.failed_states o)
    end in
  if Qeq_bool count_failed (ExternalTaskSensor.len_Q dttm_filter)
  then Raise (failed_exn o)
  else Ok (Qeq_bool count_allowed (ExternalTaskSensor.len_Q dttm_filter)).

Definition verdict_log (o : ExternalTaskSensor.t)
  (dttm_filter : list datetime) : list Query :=
  (count_log o dttm_filter (ExternalTaskSensor.allowed_states o)
   ++ match ExternalTaskSensor.failed_states o with
      | [] => []
      | _ :: _ => count_log o dttm_filter (ExternalTaskSensor.failed_states o)
      end)%list.

(** Lines 168-169 of [poke]. *)
Definition existence_gate (o : ExternalTaskSensor.t)
  : M ExternalTaskSensor.machine unit :=
  if ExternalTaskSensor.check_existence o
     && negb (ExternalTaskSensor._has_checked_existence o)
  then ExternalTaskSensor._check_for_existence else ret tt.

(** The existence check does not raise in this call of [poke]: it is
    switched off, or it has passed before, or it passes now. *)
Definition existence_passes (m : ExternalTaskSensor.machine) : Prop :=
  let o := ExternalTaskSensor.self m in
  ExternalTaskSensor.check_existence o = true ->
  ExternalTaskSensor._has_checked_existence o = false ->
  fst (ExternalTaskSensor._check_for_existence m) = Ok tt.

(** No [DagModel] row carries the id. *)
Definition not_registered (w : World) (dag_id : string) : Prop :=
  forall d, In d (dag_models w) -> dm_dag_id d <> dag_id.

(** The existence check of an object without task ids, read off the
    database (lines 189-195). *)
Definition dag_existence (w : World) (dag_id : string) : result unit :=
  match find (fun d => String.eqb (dm_dag_id d) dag_id) (dag_models w) with
  | None => Raise (DagDoesNotExist dag_id)
  | Some d =>
      if negb (path_exists w (fileloc d)) then Raise (DagWasDeleted dag_id)
      else Ok tt
  end.

(** ** The attributes [__init__] computes, read off the arguments *)

Definition init_allowed_states (St : State.t) (kw : ExternalTaskSensor.kwargs)
  : list StateLabel :=
  if truthy (ExternalTaskSensor.kw_allowed_states kw)
  then items (ExternalTaskSensor.kw_allowed_states kw)
  else [State.SUCCESS St].

Definition init_failed_states (kw : ExternalTaskSensor.kwargs)
  : list StateLabel :=
  if truthy (ExternalTaskSensor.kw_failed_states kw)
  then items (ExternalTaskSensor.kw_failed_states kw)
  else [].

Definition init_task_ids (kw : ExternalTaskSensor.kwargs)
  : option (list string) :=
  match ExternalTaskSensor.kw_external_task_id kw with
  | Some task_id => Some [task_id]
  | None => ExternalTaskSensor.kw_external_task_ids kw
  end.

(** The same keyword arguments with another [external_task_ids]. *)
Definition with_task_ids (ids : option (list string))
  (kw : ExternalTaskSensor.kwargs) : ExternalTaskSensor.kwargs :=
  ExternalTaskSensor.mk_kwargs
    (ExternalTaskSensor.kw_external_dag_id kw)
    (ExternalTaskSensor.kw_external_task_id kw)
    ids
    (ExternalTaskSensor.kw_allowed_states kw)
    (ExternalTaskSensor.kw_failed_states kw)
    (ExternalTaskSensor.kw_execution_delta kw)
    (ExternalTaskSensor.kw_execution_date_fn kw)
    (ExternalTaskSensor.kw_check_existence kw).

(** The same object with another [external_task_ids] attribute. *)
Definition with_external_task_ids (ids : option (list string))
  (o : ExternalTaskSensor.t) : ExternalTaskSensor.t :=
  ExternalTaskSensor.mk
    (ExternalTaskSensor.allowed_states o)
    (ExternalTaskSensor.failed_states o)
    (ExternalTaskSensor.execution_delta o)
    (ExternalTaskSensor.execution_date_fn o)
    (ExternalTaskSensor.external_dag_id o)
    (ExternalTaskSensor.external_task_id o)
    ids
    (ExternalTaskSensor.check_existence o)
    (ExternalTaskSensor._has_checked_existence o).

(** ** Example objects and databases

    [T1] and [T2] are two logical dates; the sensors are the objects
    [__init__] returns for the keyword arguments next to them (lemmas
    [init_sensor_W] and following). *)

(** An instance of the vocabulary for the examples: the state names of
    [airflow.utils.state] at this revision. *)
Definition example_states : State.t :=
  State.mk (Some "success")
    [None; Some "success"; Some "running"; Some "failed";
     Some "upstream_failed"; Some "skipped"; Some "up_for_retry";
     Some "up_for_reschedule"; Some "queued"; Some "scheduled";
     Some "sensing"; Some "deferred"; Some "removed"; Some "restarting";
     Some "shutdown"]
    [Some "queued"; Some "success"; Some "running"; Some "failed"].

Definition T1 : datetime := 1609459200000000.
Definition T2 : datetime := 1609545600000000.

Definition no_files : string -> bool := fun _ => false.
Definition all_files : string -> bool := fun _ => true.
Definition no_dagbag : string -> string -> option (list string) :=
  fun _ _ => None.

(** The DAG [W] itself, default states, the logical date of the caller. *)
Definition kwargs_W : ExternalTaskSensor.kwargs :=
  ExternalTaskSensor.mk_kwargs "W" None None None None None None false.
Definition sensor_W : ExternalTaskSensor.t :=
  ExternalTaskSensor.mk [Some "success"] [] None None "W" None None false false.

(** The tasks [A] and [B] of [W] at the two dates [T1], [T2]. *)
Definition two_dates : Context -> dttm_value := fun _ => DtList [T1; T2].
Definition kwargs_AB : ExternalTaskSensor.kwargs :=
  ExternalTaskSensor.mk_kwargs "W" None (Some ["A"; "B"]) None None None
    (Some two_dates) false.
Definition sensor_AB : ExternalTaskSensor.t :=
  ExternalTaskSensor.mk [Some "success"] [] None (Some two_dates) "W" None
    (Some ["A"; "B"]) false false.

Definition success_row (task_id : string) (d : datetime) : TaskInstance :=
  mkTI "W" task_id (Some "success") d.

Definition world_4_rows : World :=
  mkWorld [] [success_row "A" T1; success_row "A" T2;
              success_row "B" T1; success_row "B" T2]
          [] all_files no_dagbag.

Definition world_3_rows : World :=
  mkWorld [] [success_row "A" T1; success_row "A" T2; success_row "B" T1]
          [] all_files no_dagbag.

Definition world_1_run : World :=
  mkWorld [mkDagModel "W" "/dags/w.py"] [] [mkDR "W" (Some "success") T1]
          all_files no_dagbag.

Definition context_T1 : Context := mkContext T1 [].

(** [W] with a failed state configured and the existence check on. *)
Definition kwargs_W_checked : ExternalTaskSensor.kwargs :=
  ExternalTaskSensor.mk_kwargs "W" None None None (Some [Some "failed"])
    None None true.
Definition sensor_W_checked : ExternalTaskSensor.t :=
  ExternalTaskSensor.mk [Some "success"] [Some "failed"] None None "W" None
    None true false.

(** The run of [W] at [T1] has failed. *)
Definition world_failed_run : World :=
  mkWorld [mkDagModel "W" "/dags/w.py"] [] [mkDR "W" (Some "failed") T1]
          all_files no_dagbag.

(** The same, after the file that defined [W] was removed. *)
Definition world_failed_run_deleted : World :=
  mkWorld [mkDagModel "W" "/dags/w.py"] [] [mkDR "W" (Some "failed") T1]
          no_files no_dagbag.

(** A date function that returns no date at all. *)
Definition no_dates : Context -> dttm_value := fun _ => DtList [].
Definition kwargs_W_no_dates : ExternalTaskSensor.kwargs :=
  ExternalTaskSensor.mk_kwargs "W" None None None None None (Some no_dates)
    false.
Definition sensor_W_no_dates : ExternalTaskSensor.t :=
  ExternalTaskSensor.mk [Some "success"] [] None (Some no_dates) "W" None None
    false false.

(** [W] is not registered: no [DagModel] row at all. *)
Definition world_unregistered : World :=
  mkWorld [] [] [mkDR "W" (Some "success") T1] all_files no_dagbag.

(** [A] of [W], with the plural form given as an empty list. *)
Definition kwargs_A_and_empty : ExternalTaskSensor.kwargs :=
  ExternalTaskSensor.mk_kwargs "W" (Some "A") (Some []) None None None None
    false.
Definition sensor_A : ExternalTaskSensor.t :=
  ExternalTaskSensor.mk [Some "success"] [] None None "W" (Some "A")
    (Some ["A"]) false false.

(** [W] with the plural form given as an empty list. *)
Definition kwargs_W_empty : ExternalTaskSensor.kwargs :=
  ExternalTaskSensor.mk_kwargs "W" None (Some []) None None None None false.

(** [W] one day back. *)
Definition one_day : timedelta := 86400000000.
Definition kwargs_W_yesterday : ExternalTaskSensor.kwargs :=
  ExternalTaskSensor.mk_kwargs "W" None None None None (Some one_day) None
    false.

(** [success] both allowed and failed. *)
Definition kwargs_W_overlap : ExternalTaskSensor.kwargs :=
  ExternalTaskSensor.mk_kwargs "W" None None
    (Some [Some "success"; Some "skipped"]) (Some [Some "failed"; Some "success"])
    None None false.

(** ** The keyword arguments [_handle_execution_date_fn] builds

    Lines 254-259.  A dict is an association list with one entry per key, in
    insertion order; [V] is the type of the values of the context.  A value
    of [kwargs] is a value of the context or, under ["context"], the context
    itself. *)

Fixpoint dict_get {V} (k : string) (d : list (string * V)) : option V :=
  match d with
  | [] => None
  | (k', v) :: rest => if String.eqb k' k then Some v else dict_get k rest
  end.

(** [d[k] = v]: the entry is replaced where it is, or added at the end. *)
Fixpoint dict_set {V} (k : string) (v : V) (d : list (string * V))
  : list (string * V) :=
  match d with
  | [] => [(k, v)]
  | (k', v') :: rest =>
      if String.eqb k' k then (k', v) :: rest
      else (k', v') :: dict_set k v rest
  end.

Inductive kwarg (V : Type) :=
| KwValue (v : V)
| KwContext (context : list (string * V)).
Arguments KwValue {V} v.
Arguments KwContext {V} context.

Definition handle_execution_date_fn_kwargs {V} (context : list (string * V))
  : list (string * kwarg V) :=
  let kwargs :=
    map (fun kv => (fst kv, KwValue (snd kv)))
        (filter (fun kv =>
                   negb (str_in (fst kv) ["execution_date"; "logical_date"]))
                context) in
  dict_set "context" (KwContext context) kwargs.

(** ** What the rows say about a target

    The tables hold at most one [DagRun] per DAG and date and at most one
    [TaskInstance] per DAG, task and date (their unique keys). *)

Definition dr_key (r : DagRun) : string * datetime :=
  (dr_dag_id r, dr_execution_date r).

Definition ti_key (r : TaskInstance) : string * (string * datetime) :=
  (ti_dag_id r, (ti_task_id r, ti_execution_date r)).

Definition unique_rows (w : World) : Prop :=
  NoDup (map dr_key (dag_runs w)) /\ NoDup (map ti_key (task_instances w)).

(** The run of [dag_id] at date [d] is in one of [states]. *)
Definition run_in_states (w : World) (dag_id : string)
  (states : list StateLabel) (d : datetime) : Prop :=
  exists r, In r (dag_runs w)
            /\ dr_key r = (dag_id, d)
            /\ dr_state r <> None /\ In (dr_state r) states.

(** The task [task_id] of [dag_id] at date [d] is in one of [states]. *)
Definition task_in_states (w : World) (dag_id : string)
  (states : list StateLabel) (task_id : string) (d : datetime) : Prop :=
  exists r, In r (task_instances w)
            /\ ti_key r = (dag_id, (task_id, d))
            /\ ti_state r <> None /\ In (ti_state r) states.

(** What the sensor waits for at date [d]: every configured task, or the
    run of the DAG when no task is configured. *)
Definition target_in_states (o : ExternalTaskSensor.t) (w : World)
  (states : list StateLabel) (d : datetime) : Prop :=
  if truthy (ExternalTaskSensor.external_task_ids o) then
    forall task_id,
      In task_id (items (ExternalTaskSensor.external_task_ids o)) ->
      task_in_states w (ExternalTaskSensor.external_dag_id o) states task_id d
  else run_in_states w (ExternalTaskSensor.external_dag_id o) states d.

Definition all_targets_in_states (o : ExternalTaskSensor.t) (w : World)
  (states : list StateLabel) (dttm_filter : list datetime) : Prop :=
  forall d, In d dttm_filter -> target_in_states o w states d.

(** [W] with the check and no failed state. *)
Definition sensor_W_check_only : ExternalTaskSensor.t :=
  ExternalTaskSensor.mk [Some "success"] [] None None "W" None None true false.

(** [W] with a failed state and a date function that returns no date. *)
Definition sensor_W_failed_no_dates : ExternalTaskSensor.t :=
  ExternalTaskSensor.mk [Some "success"] [Some "failed"] None (Some no_dates)
    "W" None None false false.

(** [A] and [B] of [W] at [T1] listed twice. *)
Definition same_date_twice : Context -> dttm_value := fun _ => DtList [T1; T1].
Definition sensor_AB_twice : ExternalTaskSensor.t :=
  ExternalTaskSensor.mk [Some "success"] [] None (Some same_date_twice) "W"
    None (Some ["A"; "B"]) false false.

(** [A] and [B] of [W] with the check; [W] is registered, its file is
    there and defines [A] and [C] only. *)
Definition sensor_AB_checked : ExternalTaskSensor.t :=
  ExternalTaskSensor.mk [Some "success"] [] None (Some two_dates) "W" None
    (Some ["A"; "B"]) true false.
Definition world_W_without_B : World :=
  mkWorld [mkDagModel "W" "/dags/w.py"] [] [] all_files
          (fun _ _ => Some ["A"; "C"]).
Definition world_W_with_AB : World :=
  mkWorld [mkDagModel "W" "/dags/w.py"]
          [success_row "A" T1; success_row "A" T2;
           success_row "B" T1; success_row "B" T2]
          [] all_files (fun _ _ => Some ["B"; "A"]).

(** The DAG a query is about. *)
Definition query_dag_id (q : Query) : string :=
  match q with
  | QFirstDagModel dag_id => dag_id
  | QCountTI dag_id _ _ _ => dag_id
  | QCountDR dag_id _ _ => dag_id
  end.

(** The failure of the dependency, raised by lines 177-184. *)
Definition is_dependency_failed (e : exn) : bool :=
  match e with
  | ExternalTasksFailed _ _ | ExternalDagFailed _ => true
  | _ => false
  end.

(** ** Counting rows by a property

    [counts P rows n]: exactly [n] of the rows, with repetitions, have the
    property [P]. *)

Inductive counts {R : Type} (P : R -> Prop) : list R -> nat -> Prop :=
| counts_nil : counts P [] 0
| counts_in (r : R) (rows : list R) (n : nat) :
    P r -> counts P rows n -> counts P (r :: rows) (S n)
| counts_out (r : R) (rows : list R) (n : nat) :
    ~ P r -> counts P rows n -> counts P (r :: rows) n.

(** The [TaskInstance] rows the query of lines 222-231 is about: the row
    belongs to the DAG, its task is one of the ids, its state is not NULL
    and is one of the states, and its date is one of the dates. *)
Definition ti_counted (dag_id : string) (task_ids : list string)
  (states : list StateLabel) (dates : list datetime) (r : TaskInstance)
  : Prop :=
  ti_dag_id r = dag_id
  /\ In (ti_task_id r) task_ids
  /\ (ti_state r <> None /\ In (ti_state r) states)
  /\ In (ti_execution_date r) dates.

(** The four rows of [A] and [B] at [T1] and [T2], among rows of another
    DAG, of another task, of another date and of a task that has no state
    yet. *)
Definition T3 : datetime := 1609632000000000.

Definition other_rows : list TaskInstance :=
  [mkTI "V" "A" (Some "success") T1;
   mkTI "W" "C" (Some "success") T2;
   mkTI "W" "A" (Some "success") T3;
   mkTI "W" "B" None T3].

Definition world_4_among_others : World :=
  mkWorld [] (success_row "A" T1 :: success_row "A" T2
              :: success_row "B" T1 :: success_row "B" T2 :: other_rows)
          [] all_files no_dagbag.

(** The same while [B] is still running at [T2]. *)
Definition world_3_among_others : World :=
  mkWorld [] (success_row "A" T1 :: success_row "A" T2
              :: success_row "B" T1 :: mkTI "W" "B" (Some "running") T2
              :: other_rows)
          [] all_files no_dagbag.

(** Three tasks of [W] at the logical date, one of them done. *)
Definition sensor_ABC : ExternalTaskSensor.t :=
  ExternalTaskSensor.mk [Some "success"] [] None None "W" None
    (Some ["A"; "B"; "C"]) false false.

Definition world_1_of_3 : World :=
  mkWorld [] [success_row "A" T1; mkTI "W" "B" (Some "running") T1;
              mkTI "W" "C" None T1]
          [] all_files no_dagbag.

(** * Properties *)

(** ** Membership tests *)

Lemma state_eqb_eq (a b : StateLabel) : state_eqb a b = true <-> a = b.
Proof.
  destruct a as [x|], b as [y|]; simpl; try (split; congruence).
  rewrite String.eqb_eq. split; congruence.
Qed.

Lemma state_in_In (x : StateLabel) (xs : list StateLabel) :
  state_in x xs = true <-> In x xs.
Proof.
  unfold state_in. rewrite existsb_exists. split.
  - intros [y [Hy Hxy]]. apply state_eqb_eq in Hxy. now subst.
  - intros H. exists x. split; [assumption | now apply state_eqb_eq].
Qed.

Lemma states_intersect_spec (failed allowed : list StateLabel) :
  states_intersect failed allowed = true <->
  exists x, In x allowed /\ In x failed.
Proof.
  unfold states_intersect. rewrite existsb_exists. split.
  - intros [x [Hf Ha]]. exists x. split; [now apply state_in_In | assumption].
  - intros [x [Ha Hf]]. exists x. split; [assumption | now apply state_in_In].
Qed.

Lemma truthy_items {A} (o : option (list A)) :
  truthy o = true <-> items o <> [].
Proof.
  destruct o as [[|a l]|]; simpl; split; congruence.
Qed.

(** ** What the methods of the sensor do to the machine state *)

Section SensorRuns.
Import ExternalTaskSensor.

Lemma get_count_run (dttm_filter : list datetime) (states : list StateLabel)
  (m : machine) :
  get_count dttm_filter states m =
  (Ok (count_value (self m) (db (session m)) dttm_filter states),
   mk_machine (self m)
     (mkSession (db (session m))
        (issued (session m) ++ count_log (self m) dttm_filter states)%list)).
Proof.
  destruct m as [o [w qs]].
  unfold get_count, count_value, count_log, bind, get, with_session, ret.
  destruct dttm_filter as [|d ds]; simpl.
  - now rewrite app_nil_r.
  - destruct (truthy (external_task_ids o)); reflexivity.
Qed.

Lemma check_tasks_exist_run (dag_id : string) (dag_tasks : option (list string))
  (ids : list string) (m : machine) :
  exists r, check_tasks_exist dag_id dag_tasks ids m = (r, m)
            /\ raised_from_existence_check r.
Proof.
  induction ids as [|i ids IH]; simpl.
  - now exists (Ok tt).
  - destruct dag_tasks as [task_dict|].
    + unfold bind, raise_if.
      destruct (negb (str_in i task_dict)); simpl.
      * exists (Raise (TaskDoesNotExist i dag_id)). now split.
      * exact IH.
    + exists (Raise NoneHasNoTask). now split.
Qed.

(** The existence check asks the session one query; it sets the flag when
    it returns and leaves the object as it is when it raises. *)
Lemma check_for_existence_run (m : machine) :
  exists r,
    _check_for_existence m =
    (r, mk_machine
          (match r with
           | Ok _ => with_has_checked_existence true (self m)
           | Raise _ => self m
           end)
          (record_query (QFirstDagModel (external_dag_id (self m)))
                        (session m)))
    /\ raised_from_existence_check r.
Proof.
  destruct m as [o s].
  unfold _check_for_existence, bind at 1, get. simpl.
  unfold bind at 1, with_session, query_first_dag_model. simpl.
  destruct (find _ _) as [d|];
    [|exists (Raise (DagDoesNotExist (external_dag_id o))); now split].
  unfold bind at 1, raise_if.
  destruct (negb (path_exists (db s) (fileloc d))); simpl;
    [exists (Raise (DagWasDeleted (external_dag_id o))); now split|].
  unfold bind at 1.
  destruct (truthy (external_task_ids o)).
  - match goal with
    | |- context [check_tasks_exist ?a ?b ?c ?mm] =>
        destruct (check_tasks_exist_run a b c mm) as [r [Hr He]]; rewrite Hr
    end.
    destruct r as [[]|e].
    + exists (Ok tt). now split.
    + exists (Raise e). now split.
  - exists (Ok tt). now split.
Qed.

Lemma check_for_existence_not_registered (m : machine) :
  not_registered (db (session m)) (external_dag_id (self m)) ->
  _check_for_existence m =
  (Raise (DagDoesNotExist (external_dag_id (self m))),
   mk_machine (self m)
     (record_query (QFirstDagModel (external_dag_id (self m))) (session m))).
Proof.
  intros Hnr. destruct m as [o s]. simpl in *.
  unfold _check_for_existence, bind at 1, get. simpl.
  unfold bind at 1, with_session, query_first_dag_model. simpl.
  destruct (find _ _) as [d|] eqn:Hf; [|reflexivity].
  apply find_some in Hf. destruct Hf as [Hin Heq].
  apply String.eqb_eq in Heq. now apply Hnr in Hin.
Qed.

Lemma existence_gate_run (m : machine) :
  exists r qs,
    existence_gate (self m) m =
    (r, mk_machine
          (match r with
           | Ok _ => if check_existence (self m)
                        && negb (_has_checked_existence (self m))
                     then with_has_checked_existence true (self m)
                     else self m
           | Raise _ => self m
           end)
          (mkSession (db (session m)) (issued (session m) ++ qs)%list))
    /\ qs = (if check_existence (self m)
                && negb (_has_checked_existence (self m))
             then [QFirstDagModel (external_dag_id (self m))] else [])
    /\ (check_existence (self m) && negb (_has_checked_existence (self m))
        = false -> r = Ok tt)
    /\ raised_from_existence_check r.
Proof.
  unfold existence_gate.
  destruct (check_existence (self m) && negb (_has_checked_existence (self m))).
  - destruct (check_for_existence_run m) as [r [Hr He]].
    exists r, [QFirstDagModel (external_dag_id (self m))].
    rewrite Hr. repeat split; auto; discriminate.
  - exists (Ok tt), []. destruct m as [o [w qs]]. simpl.
    rewrite app_nil_r. repeat split; auto.
Qed.

Lemma poke_run (context : Context) (m : machine) :
  poke context m =
  match existence_gate (self m) m with
  | (Raise e, m1) => (Raise e, m1)
  | (Ok _, m1) =>
      (verdict (self m) (db (session m)) (poke_dttm_filter (self m) context),
       mk_machine (self m1)
         (mkSession (db (session m))
            (issued (session m1)
             ++ verdict_log (self m) (poke_dttm_filter (self m) context))%list))
  end.
Proof.
  destruct (existence_gate_run m) as [r [qs [Hg _]]].
  unfold poke, bind at 1, get.
  cbv beta iota. unfold bind at 1.
  change (if check_existence (self m) && negb (_has_checked_existence (self m))
          then _check_for_existence else ret tt)
    with (existence_gate (self m)).
  rewrite Hg.
  destruct r as [[]|e]; [|reflexivity].
  set (o1 := if check_existence (self m) && negb (_has_checked_existence (self m))
             then with_has_checked_existence true (self m) else self m).
  assert (Hv : forall w d st, count_value o1 w d st = count_value (self m) w d st)
    by (intros; subst o1; destruct (_ && _); reflexivity).
  assert (Hl : forall d st, count_log o1 d st = count_log (self m) d st)
    by (intros; subst o1; destruct (_ && _); reflexivity).
  clearbody o1. clear Hg.
  unfold verdict, verdict_log.
  unfold bind at 1. rewrite get_count_run. cbn [self session db issued].
  rewrite Hv, Hl.
  unfold bind at 1.
  destruct (failed_states (self m)) as [|f fs] eqn:Hf.
  - unfold ret at 1. unfold bind at 1.
    destruct (Qeq_bool (inject_Z (-1)) _).
    + unfold failed_exn. rewrite app_nil_r.
      destruct (truthy (external_task_ids (self m))); reflexivity.
    + unfold ret at 1. unfold bind, ret. now rewrite app_nil_r.
  - rewrite get_count_run. cbn [self session db issued].
    rewrite Hv, Hl. unfold bind at 1.
    destruct (Qeq_bool (count_value _ _ _ _) _).
    + unfold failed_exn. rewrite <- app_assoc.
      destruct (truthy (external_task_ids (self m))); reflexivity.
    + unfold ret at 1. unfold bind, ret. now rewrite <- app_assoc.
Qed.
End SensorRuns.

(** ** The verdict of [poke] *)

Section Verdict.
Import ExternalTaskSensor.

Lemma init_sensor_W : __init__ example_states kwargs_W = Ok sensor_W.
Proof. reflexivity. Qed.

Lemma init_sensor_AB : __init__ example_states kwargs_AB = Ok sensor_AB.
Proof. reflexivity. Qed.

(** C1. When the resolved target sequence is not empty and [poke] returns
    (it raises neither from the existence check nor from the failed-state
    check), it returns [true] exactly when the count [get_count] computes
    for the allowed states over that sequence equals the number of
    targets. *)
Theorem poke_true_iff_allowed_count
  (context : Context) (m m' : machine) (b : bool) :
  poke_dttm_filter (self m) context <> [] ->
  poke context m = (Ok b, m') ->
  exists c m'',
    get_count (poke_dttm_filter (self m) context) (allowed_states (self m)) m
    = (Ok c, m'')
    /\ (b = true <->
        (c == inject_Z (Z.of_nat
               (List.length (poke_dttm_filter (self m) context))))%Q).
Proof.
  intros _ Hp.
  rewrite get_count_run. do 2 eexists. split; [reflexivity|].
  rewrite poke_run in Hp.
  destruct (existence_gate (self m) m) as [[[]|e] m1]; [|discriminate].
  unfold verdict in Hp.
  destruct (Qeq_bool _ _); [discriminate|].
  injection Hp as Hb _. subst b.
  apply Qeq_bool_iff.
Qed.

Lemma poke_true_iff_allowed_count_witness :
  exists c m'',
    get_count (poke_dttm_filter sensor_W context_T1) (allowed_states sensor_W)
              (mk_machine sensor_W (new_session world_1_run))
    = (Ok c, m'')
    /\ (true = true <->
        (c == inject_Z (Z.of_nat
               (List.length (poke_dttm_filter sensor_W context_T1))))%Q).
Proof.
  apply (poke_true_iff_allowed_count context_T1
           (mk_machine sensor_W (new_session world_1_run))
           (mk_machine sensor_W
              (mkSession world_1_run
                 [QCountDR "W" [Some "success"] [T1]]))
           true).
  - discriminate.
  - reflexivity.
Defined.

Lemma init_sensor_W_checked :
  __init__ example_states kwargs_W_checked = Ok sensor_W_checked.
Proof. reflexivity. Qed.

Lemma init_sensor_W_no_dates :
  __init__ example_states kwargs_W_no_dates = Ok sensor_W_no_dates.
Proof. reflexivity. Qed.

Lemma existence_passes_gate (m : machine) :
  existence_passes m -> exists m1, existence_gate (self m) m = (Ok tt, m1).
Proof.
  unfold existence_passes, existence_gate. intros H.
  destruct (check_existence (self m)); simpl.
  - destruct (_has_checked_existence (self m)); simpl.
    + now eexists.
    + specialize (H eq_refl eq_refl).
      destruct (_check_for_existence m) as [r m1]. simpl in H. subst r.
      now eexists.
  - now eexists.
Qed.

Lemma call_poke_run (o : t) (context : Context) (w : World) :
  call_poke o context w =
  match existence_gate o (mk_machine o (new_session w)) with
  | (Raise e, m1) => (Raise e, self m1, issued (session m1))
  | (Ok _, m1) =>
      (verdict o w (poke_dttm_filter o context), self m1,
       (issued (session m1) ++ verdict_log o (poke_dttm_filter o context))%list)
  end.
Proof.
  unfold call_poke. rewrite poke_run. simpl.
  destruct (existence_gate o _) as [[[]|e] m1]; reflexivity.
Qed.

(** C2, as the code has it.  When the existence check does not raise in
    the call, failed states are configured and the count [get_count]
    computes for them equals the number of targets, [poke] raises the
    failure naming the DAG and, when task ids are configured, the task
    ids, whatever the count of the allowed states. *)
Theorem poke_raises_when_all_failed
  (context : Context) (m : machine) (c : Q) :
  existence_passes m ->
  failed_states (self m) <> [] ->
  fst (get_count (poke_dttm_filter (self m) context)
                 (failed_states (self m)) m) = Ok c ->
  (c == inject_Z (Z.of_nat
          (List.length (poke_dttm_filter (self m) context))))%Q ->
  fst (poke context m) =
  Raise (if truthy (external_task_ids (self m))
         then ExternalTasksFailed (items (external_task_ids (self m)))
                                  (external_dag_id (self m))
         else ExternalDagFailed (external_dag_id (self m))).
Proof.
  intros Hpass Hne Hc Heq.
  rewrite get_count_run in Hc. simpl in Hc. injection Hc as Hc. subst c.
  destruct (existence_passes_gate m Hpass) as [m1 Hg].
  rewrite poke_run, Hg. simpl. unfold verdict.
  destruct (failed_states (self m)) as [|f fs]; [congruence|].
  apply Qeq_bool_iff in Heq. unfold len_Q. rewrite Heq. reflexivity.
Qed.

Lemma poke_raises_when_all_failed_witness :
  fst (poke context_T1
            (mk_machine sensor_W_checked (new_session world_failed_run)))
  = Raise (ExternalDagFailed "W").
Proof.
  apply (poke_raises_when_all_failed context_T1
           (mk_machine sensor_W_checked (new_session world_failed_run))
           (inject_Z 1)).
  - intros _ _. reflexivity.
  - discriminate.
  - reflexivity.
  - reflexivity.
Defined.

(** C2 as it is worded fails: every target is in a configured failed
    state, yet [poke] raises from the existence check, which comes first,
    and not the failure of the dependency. *)
Lemma poke_all_failed_counterexample :
  let m := mk_machine sensor_W_checked
                      (new_session world_failed_run_deleted) in
  failed_states (self m) = [Some "failed"]
  /\ poke_dttm_filter (self m) context_T1 = [T1]
  /\ fst (get_count [T1] (failed_states (self m)) m) = Ok (inject_Z 1)
  /\ fst (poke context_T1 m) = Raise (DagWasDeleted "W")
  /\ fst (poke context_T1 m) <> Raise (ExternalDagFailed "W").
Proof.
  repeat split; discriminate.
Qed.

Lemma filter_false {A} (f : A -> bool) (l : list A) :
  (forall x, f x = false) -> filter f l = [].
Proof.
  intros H. induction l as [|a l IH]; simpl; [reflexivity|].
  now rewrite H.
Qed.

Lemma matching_ti_no_dates (w : World) (dag_id : string)
  (task_ids : list string) (states : list StateLabel) :
  matching_ti w dag_id task_ids states [] = 0.
Proof.
  unfold matching_ti. rewrite filter_false; [reflexivity|].
  intros r. unfold ti_matches. simpl. apply andb_false_r.
Qed.

(** C4, as the code has it.  With no target and no failed state
    configured, [poke] never returns [false]: it returns [true] whenever
    the existence check does not raise in the call, because [get_count]
    returns 0 for an empty sequence and 0 is the number of targets. *)
Theorem poke_empty_targets_satisfied (context : Context) (m : machine) :
  poke_dttm_filter (self m) context = [] ->
  failed_states (self m) = [] ->
  fst (poke context m) <> Ok false
  /\ (existence_passes m -> fst (poke context m) = Ok true).
Proof.
  intros Ht Hf.
  assert (Hv : verdict (self m) (db (session m))
                 (poke_dttm_filter (self m) context) = Ok true)
    by (unfold verdict; rewrite Ht, Hf; reflexivity).
  rewrite poke_run, Hv. split.
  - destruct (existence_gate (self m) m) as [[[]|e] m1]; discriminate.
  - intros Hpass. destruct (existence_passes_gate m Hpass) as [m1 Hg].
    now rewrite Hg.
Qed.

Lemma poke_empty_targets_satisfied_witness :
  let m := mk_machine sensor_W_no_dates (new_session world_1_run) in
  fst (poke context_T1 m) <> Ok false
  /\ (existence_passes m -> fst (poke context_T1 m) = Ok true).
Proof.
  apply (poke_empty_targets_satisfied context_T1
           (mk_machine sensor_W_no_dates (new_session world_1_run))).
  - reflexivity.
  - reflexivity.
Defined.

(** C4 as it is worded fails: the date function returns no date, no
    failed state is configured, and [poke] reports the dependency as
    satisfied. *)
Lemma poke_empty_targets_counterexample :
  let m := mk_machine sensor_W_no_dates (new_session world_1_run) in
  poke_dttm_filter (self m) context_T1 = []
  /\ failed_states (self m) = []
  /\ fst (poke context_T1 m) = Ok true.
Proof.
  repeat split.
Qed.
End Verdict.

(** ** The existence check across calls *)

Section ExistenceCheck.
Import ExternalTaskSensor.

Lemma existence_checks_app (a b : list Query) :
  existence_checks (a ++ b) = (existence_checks a + existence_checks b)%nat.
Proof.
  unfold existence_checks. now rewrite filter_app, length_app.
Qed.

Lemma count_queries_app (a b : list Query) :
  count_queries (a ++ b) = (count_queries a + count_queries b)%nat.
Proof.
  unfold count_queries. now rewrite filter_app, length_app.
Qed.

Lemma existence_checks_count_log (o : t) (d : list datetime)
  (st : list StateLabel) :
  existence_checks (count_log o d st) = 0%nat.
Proof.
  unfold count_log. destruct d; [reflexivity|].
  destruct (truthy (external_task_ids o)); reflexivity.
Qed.

Lemma existence_checks_verdict_log (o : t) (d : list datetime) :
  existence_checks (verdict_log o d) = 0%nat.
Proof.
  unfold verdict_log. rewrite existence_checks_app, existence_checks_count_log.
  destruct (failed_states o); [reflexivity|].
  apply existence_checks_count_log.
Qed.

Lemma verdict_not_not_found (o : t) (w : World) (d : list datetime) :
  raised_not_found (verdict o w d) = false.
Proof.
  unfold verdict, failed_exn.
  destruct (Qeq_bool _ _); [|reflexivity].
  destruct (truthy (external_task_ids o)); reflexivity.
Qed.

(** A call on an object whose flag is set goes straight to the counts. *)
Lemma call_poke_checked (o : t) (context : Context) (w : World) :
  _has_checked_existence o = true ->
  call_poke o context w =
  (verdict o w (poke_dttm_filter o context), o,
   verdict_log o (poke_dttm_filter o context)).
Proof.
  intros Hf. rewrite call_poke_run. unfold existence_gate.
  rewrite Hf, andb_false_r. reflexivity.
Qed.

(** A call on an object whose flag is not set and that asks for the
    check runs it. *)
Lemma call_poke_unchecked (o : t) (context : Context) (w : World) :
  check_existence o = true ->
  _has_checked_existence o = false ->
  exists r,
    _check_for_existence (mk_machine o (new_session w)) =
    (r, mk_machine
          (match r with
           | Ok _ => with_has_checked_existence true o
           | Raise _ => o
           end)
          (mkSession w [QFirstDagModel (external_dag_id o)]))
    /\ call_poke o context w =
       match r with
       | Ok _ =>
           (verdict o w (poke_dttm_filter o context),
            with_has_checked_existence true o,
            QFirstDagModel (external_dag_id o)
              :: verdict_log o (poke_dttm_filter o context))
       | Raise e => (Raise e, o, [QFirstDagModel (external_dag_id o)])
       end.
Proof.
  intros Hc Hf.
  destruct (check_for_existence_run (mk_machine o (new_session w)))
    as [r [Hr _]].
  exists r. split; [exact Hr|].
  rewrite call_poke_run. unfold existence_gate. rewrite Hc, Hf. simpl.
  rewrite Hr. destruct r as [[]|e]; reflexivity.
Qed.

Lemma call_poke_no_check (o : t) (context : Context) (w : World) :
  check_existence o = false ->
  call_poke o context w =
  (verdict o w (poke_dttm_filter o context), o,
   verdict_log o (poke_dttm_filter o context)).
Proof.
  intros Hc. rewrite call_poke_run. unfold existence_gate.
  rewrite Hc. reflexivity.
Qed.

Lemma poke_many_app (o : t) (calls1 calls2 : list (Context * World)) :
  poke_many o (calls1 ++ calls2) =
  (fst (poke_many o calls1)
     ++ fst (poke_many (snd (poke_many o calls1)) calls2),
   snd (poke_many (snd (poke_many o calls1)) calls2))%list.
Proof.
  revert o. induction calls1 as [|[context w] calls1 IH]; intros o; simpl.
  - now destruct (poke_many o calls2).
  - destruct (call_poke o context w) as [[r o'] qs].
    rewrite IH. destruct (poke_many o' calls1) as [outs o''].
    reflexivity.
Qed.

Lemma poke_many_checked (o : t) (calls : list (Context * World)) :
  _has_checked_existence o = true ->
  existence_checks (all_queries (fst (poke_many o calls))) = 0%nat
  /\ not_found_raises (fst (poke_many o calls)) = 0%nat
  /\ snd (poke_many o calls) = o.
Proof.
  intros Hf. induction calls as [|[context w] calls IH]; simpl.
  - repeat split.
  - rewrite (call_poke_checked o context w Hf).
    destruct (poke_many o calls) as [outs o'']. simpl in *.
    destruct IH as [IH1 [IH2 IH3]]. repeat split.
    + unfold all_queries in *. simpl.
      now rewrite existence_checks_app, existence_checks_verdict_log, IH1.
    + unfold not_found_raises in *. simpl.
      now rewrite verdict_not_not_found.
    + assumption.
Qed.
End ExistenceCheck.

(** ** Construction of the sensor *)

Section Construction.
Import ExternalTaskSensor.
Variable St : State.t.

(** What holds of the arguments when [__init__] returns, and the object
    it returns. *)
Lemma init_inv (kw : kwargs) (o : t) :
  __init__ St kw = Ok o ->
  o = mk (init_allowed_states St kw) (init_failed_states kw)
         (kw_execution_delta kw) (kw_execution_date_fn kw)
         (kw_external_dag_id kw) (kw_external_task_id kw)
         (init_task_ids kw) (kw_check_existence kw) false
  /\ states_intersect (init_failed_states kw) (init_allowed_states St kw)
     = false
  /\ is_some (kw_external_task_id kw) && is_some (kw_external_task_ids kw)
     = false
  /\ states_subset (init_allowed_states St kw ++ init_failed_states kw)%list
       (if truthy (init_task_ids kw)
        then State.task_states St else State.dag_states St) = true
  /\ is_some (kw_execution_delta kw) && is_some (kw_execution_date_fn kw)
     = false.
Proof.
  unfold __init__, init_body.
  fold (init_allowed_states St kw). fold (init_failed_states kw).
  fold (init_task_ids kw).
  unfold bind, raise_if, raise, ret.
  destruct (states_intersect _ _); simpl; [discriminate|].
  destruct (is_some (kw_external_task_id kw)
            && is_some (kw_external_task_ids kw)); simpl; [discriminate|].
  destruct (truthy (init_task_ids kw)).
  - destruct (states_subset _ (State.task_states St)); simpl; [|discriminate].
    destruct (Nat.ltb _ _); simpl; [discriminate|].
    destruct (is_some (kw_execution_delta kw)
              && is_some (kw_execution_date_fn kw)); simpl; [discriminate|].
    intros H. injection H as <-. repeat split.
  - destruct (states_subset _ (State.dag_states St)); simpl; [|discriminate].
    destruct (is_some (kw_execution_delta kw)
              && is_some (kw_execution_date_fn kw)); simpl; [discriminate|].
    intros H. injection H as <-. repeat split.
Qed.

(** [__init__] stops at the first check that fails; the first one is the
    check of the two state lists. *)
Lemma init_duplicate_states (kw : kwargs) :
  states_intersect (init_failed_states kw) (init_allowed_states St kw) = true ->
  __init__ St kw =
  Raise (DuplicateStates (init_allowed_states St kw) (init_failed_states kw)).
Proof.
  intros H. unfold __init__, init_body.
  fold (init_allowed_states St kw). fold (init_failed_states kw).
  unfold bind at 1, raise_if. rewrite H. reflexivity.
Qed.
End Construction.

Section ConstructionClaims.
Import ExternalTaskSensor.

Lemma truthy_nonempty {A} (l : list A) (x : A) :
  In x l -> truthy (Some l) = true.
Proof. destruct l; simpl; [contradiction | reflexivity]. Qed.

(** C6. When the allowed and the failed states given to [__init__] have a
    state in common, [__init__] raises (the exception that shows both
    lists); every object [__init__] returns has disjoint lists; and [poke]
    never raises that exception. *)
Theorem overlapping_states_rejected :
  (forall (St : State.t) (kw : kwargs) (allowed failed : list StateLabel),
      kw_allowed_states kw = Some allowed ->
      kw_failed_states kw = Some failed ->
      (exists x, In x allowed /\ In x failed) ->
      __init__ St kw = Raise (DuplicateStates allowed failed))
  /\ (forall (St : State.t) (kw : kwargs) (o : t),
        __init__ St kw = Ok o ->
        forall x, In x (allowed_states o) -> ~ In x (failed_states o))
  /\ (forall (context : Context) (m : machine)
             (allowed failed : list StateLabel),
        fst (poke context m) <> Raise (DuplicateStates allowed failed)).
Proof.
  split; [|split].
  - intros St kw allowed failed Ha Hf [x [Hxa Hxf]].
    assert (Hia : init_allowed_states St kw = allowed).
    { unfold init_allowed_states. rewrite Ha.
      now rewrite (truthy_nonempty allowed x Hxa). }
    assert (Hif : init_failed_states kw = failed).
    { unfold init_failed_states. rewrite Hf.
      now rewrite (truthy_nonempty failed x Hxf). }
    rewrite <- Hia, <- Hif. apply init_duplicate_states.
    apply states_intersect_spec. exists x. now rewrite Hia, Hif.
  - intros St kw o Hinit x Hxa Hxf.
    apply init_inv in Hinit. destruct Hinit as [-> [Hdis _]]. simpl in *.
    assert (Hint : states_intersect (init_failed_states kw)
                     (init_allowed_states St kw) = true)
      by (apply states_intersect_spec; now exists x).
    congruence.
  - intros context m allowed failed.
    rewrite poke_run.
    destruct (existence_gate_run m) as [r [qs [Hg [_ [_ Hr]]]]].
    rewrite Hg. destruct r as [[]|e]; simpl.
    + unfold verdict, failed_exn.
      destruct (Qeq_bool _ _); [|discriminate].
      destruct (truthy (external_task_ids (self m))); discriminate.
    + simpl in Hr. intros Heq. injection Heq as ->. discriminate.
Qed.

Lemma overlapping_states_rejected_witness :
  __init__ example_states kwargs_W_overlap =
  Raise (DuplicateStates [Some "success"; Some "skipped"]
                         [Some "failed"; Some "success"]).
Proof.
  apply (proj1 overlapping_states_rejected example_states kwargs_W_overlap).
  - reflexivity.
  - reflexivity.
  - exists (Some "success"). split; simpl; auto.
Defined.

(** C7. For a sensor built by [__init__] and a call at logical date [T]:
    with [execution_delta = D] the targets of [poke] are exactly [T - D];
    with neither [execution_delta] nor [execution_date_fn] they are
    exactly [T]. *)
Theorem target_dates_resolved
  (St : State.t) (kw : kwargs) (o : t) (context : Context) :
  __init__ St kw = Ok o ->
  (forall D, kw_execution_delta kw = Some D ->
             poke_dttm_filter o context = [logical_date context - D])
  /\ (kw_execution_delta kw = None ->
      kw_execution_date_fn kw = None ->
      poke_dttm_filter o context = [logical_date context]).
Proof.
  intros Hinit. apply init_inv in Hinit.
  destruct Hinit as [-> [_ [_ [_ Hone]]]].
  unfold poke_dttm_filter, poke_dttm. simpl. split.
  - intros D HD. rewrite HD in *. simpl in *.
    destruct (Z.eqb_spec D 0) as [->|Hnz]; simpl; [|reflexivity].
    rewrite Hone. now rewrite Z.sub_0_r.
  - intros HD Hfn. rewrite HD, Hfn. reflexivity.
Qed.

Lemma target_dates_resolved_witness :
  (forall D, kw_execution_delta kwargs_W_yesterday = Some D ->
             poke_dttm_filter
               (mk [Some "success"] [] (Some one_day) None "W" None None
                   false false)
               context_T1 = [logical_date context_T1 - D])
  /\ (kw_execution_delta kwargs_W_yesterday = None ->
      kw_execution_date_fn kwargs_W_yesterday = None ->
      poke_dttm_filter
        (mk [Some "success"] [] (Some one_day) None "W" None None
            false false)
        context_T1 = [logical_date context_T1]).
Proof.
  apply (target_dates_resolved example_states kwargs_W_yesterday).
  reflexivity.
Defined.
End ConstructionClaims.

(** ** An empty [external_task_ids] *)

Section EmptyTaskIds.
Import ExternalTaskSensor.

Lemma check_for_existence_no_task_ids (o : t) (s : Session) :
  truthy (external_task_ids o) = false ->
  fst (_check_for_existence (mk_machine o s))
  = dag_existence (db s) (external_dag_id o).
Proof.
  intros Hids.
  unfold _check_for_existence, dag_existence, bind at 1, get. simpl.
  unfold bind at 1, with_session, query_first_dag_model. simpl.
  destruct (find _ _) as [d|]; [|reflexivity].
  unfold bind at 1, raise_if.
  destruct (negb (path_exists (db s) (fileloc d))); simpl; [reflexivity|].
  rewrite Hids. reflexivity.
Qed.

(** A call of [poke] on an object without task ids, as a function of the
    attributes other than [external_task_ids]. *)
Lemma call_poke_no_task_ids (o : t) (context : Context) (w : World) :
  truthy (external_task_ids o) = false ->
  call_poke o context w =
  if check_existence o && negb (_has_checked_existence o) then
    match dag_existence w (external_dag_id o) with
    | Raise e => (Raise e, o, [QFirstDagModel (external_dag_id o)])
    | Ok _ =>
        (verdict o w (poke_dttm_filter o context),
         with_has_checked_existence true o,
         QFirstDagModel (external_dag_id o)
           :: verdict_log o (poke_dttm_filter o context))
    end
  else (verdict o w (poke_dttm_filter o context), o,
        verdict_log o (poke_dttm_filter o context)).
Proof.
  intros Hids.
  destruct (check_existence o) eqn:Hc; simpl.
  - destruct (_has_checked_existence o) eqn:Hf; simpl.
    + now apply call_poke_checked.
    + destruct (call_poke_unchecked o context w Hc Hf) as [r [Hr Hp]].
      rewrite Hp.
      pose proof (check_for_existence_no_task_ids o (new_session w) Hids)
        as He.
      change (db (new_session w)) with w in He.
      rewrite <- He, Hr. simpl. now destruct r as [[]|e].
  - now apply call_poke_no_check.
Qed.

Lemma get_count_no_task_ids (o : t) (s : Session)
  (dttm_filter : list datetime) (states : list StateLabel) :
  truthy (external_task_ids o) = false ->
  get_count dttm_filter states (mk_machine o s) =
  (Ok (inject_Z (matching_dr (db s) (external_dag_id o) states dttm_filter)),
   mk_machine o
     (match dttm_filter with
      | [] => s
      | _ :: _ =>
          record_query
            (QCountDR (external_dag_id o) states dttm_filter) s
      end)).
Proof.
  intros Hids. rewrite get_count_run.
  unfold count_value, count_log. simpl. rewrite Hids.
  destruct dttm_filter as [|d ds]; [|reflexivity].
  rewrite app_nil_r. destruct s as [w qs]. simpl.
  unfold matching_dr. rewrite filter_false; [reflexivity|].
  intros r. unfold dr_matches. simpl. apply andb_false_r.
Qed.

(** C10, as the code has it.  When [external_task_id] is not given and
    [external_task_ids] is an empty collection, [__init__] and the object
    it returns behave as with [external_task_ids = None]: the same raise
    or, up to the stored attribute, the same object, whose states were
    checked against the DAG states; [poke] returns or raises the same and
    asks the same queries; and [get_count] counts [DagRun] rows and does
    not divide. *)
Theorem empty_task_ids_as_none (St : State.t) (kw : kwargs) :
  kw_external_task_id kw = None ->
  kw_external_task_ids kw = Some [] ->
  match __init__ St kw, __init__ St (with_task_ids None kw) with
  | Ok o, Ok o' =>
      o' = with_external_task_ids None o
      /\ states_subset (allowed_states o ++ failed_states o)%list
                       (State.dag_states St) = true
      /\ (forall context w,
            fst (fst (call_poke o' context w))
            = fst (fst (call_poke o context w))
            /\ snd (call_poke o' context w) = snd (call_poke o context w)
            /\ snd (fst (call_poke o' context w))
               = with_external_task_ids None (snd (fst (call_poke o context w))))
      /\ (forall dttm_filter states s,
            get_count dttm_filter states (mk_machine o s) =
            (Ok (inject_Z (matching_dr (db s) (external_dag_id o)
                                       states dttm_filter)),
             mk_machine o
               (match dttm_filter with
                | [] => s
                | _ :: _ =>
                    record_query
                      (QCountDR (external_dag_id o) states dttm_filter) s
                end)))
  | Raise e, Raise e' => e = e'
  | _, _ => False
  end.
Proof.
  intros Htid Hids.
  destruct (__init__ St kw) as [o|e] eqn:H1;
    destruct (__init__ St (with_task_ids None kw)) as [o'|e'] eqn:H2.
  - apply init_inv in H1. apply init_inv in H2.
    destruct H1 as [-> [_ [_ [Hsub _]]]]. destruct H2 as [-> _].
    unfold init_task_ids in *. simpl in *. rewrite Htid, Hids in *.
    simpl in Hsub.
    split; [reflexivity|]. split; [exact Hsub|]. split.
    + intros context w.
      rewrite !call_poke_no_task_ids by reflexivity. simpl.
      destruct (kw_check_existence kw); simpl; [|repeat split].
      destruct (dag_existence w (kw_external_dag_id kw)); repeat split.
    + intros dttm_filter states s.
      now apply get_count_no_task_ids.
  - exfalso. revert H1 H2. unfold __init__, init_body, bind, raise_if. simpl.
    rewrite Htid, Hids. simpl.
    repeat match goal with
           | |- context [if ?c then _ else _] => destruct c; simpl
           end; congruence.
  - exfalso. revert H1 H2. unfold __init__, init_body, bind, raise_if. simpl.
    rewrite Htid, Hids. simpl.
    repeat match goal with
           | |- context [if ?c then _ else _] => destruct c; simpl
           end; congruence.
  - revert H1 H2. unfold __init__, init_body, bind, raise_if. simpl.
    rewrite Htid, Hids. simpl.
    repeat match goal with
           | |- context [if ?c then _ else _] => destruct c; simpl
           end; congruence.
Qed.

Lemma empty_task_ids_as_none_witness :
  match __init__ example_states kwargs_W_empty,
        __init__ example_states (with_task_ids None kwargs_W_empty) with
  | Ok o, Ok o' =>
      o' = with_external_task_ids None o
      /\ states_subset (allowed_states o ++ failed_states o)%list
                       (State.dag_states example_states) = true
      /\ (forall context w,
            fst (fst (call_poke o' context w))
            = fst (fst (call_poke o context w))
            /\ snd (call_poke o' context w) = snd (call_poke o context w)
            /\ snd (fst (call_poke o' context w))
               = with_external_task_ids None (snd (fst (call_poke o context w))))
      /\ (forall dttm_filter states s,
            get_count dttm_filter states (mk_machine o s) =
            (Ok (inject_Z (matching_dr (db s) (external_dag_id o)
                                       states dttm_filter)),
             mk_machine o
               (match dttm_filter with
                | [] => s
                | _ :: _ =>
                    record_query
                      (QCountDR (external_dag_id o) states dttm_filter) s
                end)))
  | Raise e, Raise e' => e = e'
  | _, _ => False
  end.
Proof.
  apply (empty_task_ids_as_none example_states kwargs_W_empty).
  - reflexivity.
  - reflexivity.
Defined.

(** C10 as it is worded fails: with [external_task_id] given as well, the
    empty collection makes [__init__] raise, while [None] gives a sensor
    of the task [A]. *)
Lemma empty_task_ids_counterexample :
  kw_external_task_ids kwargs_A_and_empty = Some []
  /\ __init__ example_states kwargs_A_and_empty = Raise OnlyOneTaskIdForm
  /\ __init__ example_states (with_task_ids None kwargs_A_and_empty)
     = Ok sensor_A
  /\ truthy (external_task_ids sensor_A) = true.
Proof.
  repeat split.
Qed.
End EmptyTaskIds.

(** ** Construction of the marker *)

Section Marker.
Import ExternalTaskMarker.
Variable isoformat : datetime -> string.

(** C9. [ExternalTaskMarker.__init__] raises whenever [recursion_depth]
    is not positive (the [ValueError] when [execution_date] is a string or
    a datetime); it raises the [TypeError] whenever [execution_date] is
    neither a string nor a datetime; and when it returns, a datetime
    [execution_date] is stored as its [isoformat()] string, a string as it
    is, with a positive [recursion_depth]. *)
Theorem marker_init_validates
  (external_dag_id external_task_id : string)
  (execution_date : execution_date_arg) (recursion_depth : Z) :
  (recursion_depth <= 0 ->
   exists e,
     __init__ isoformat external_dag_id external_task_id execution_date
              recursion_depth = Raise e
     /\ (execution_date <> ArgOther -> e = RecursionDepthNotPositive))
  /\ (execution_date = ArgOther ->
      __init__ isoformat external_dag_id external_task_id execution_date
               recursion_depth = Raise ExecutionDateType)
  /\ (0 < recursion_depth ->
      forall d, execution_date = ArgDatetime d ->
      __init__ isoformat external_dag_id external_task_id execution_date
               recursion_depth
      = Ok (mk external_dag_id external_task_id (isoformat d)
               recursion_depth))
  /\ (0 < recursion_depth ->
      forall s, execution_date = ArgStr s ->
      __init__ isoformat external_dag_id external_task_id execution_date
               recursion_depth
      = Ok (mk external_dag_id external_task_id s recursion_depth)).
Proof.
  unfold __init__, init_body, bind, raise_if, raise, ret.
  repeat split.
  - intros Hrd. apply Z.leb_le in Hrd.
    destruct execution_date; simpl; rewrite ?Hrd; simpl;
      eexists; (split; [reflexivity | congruence]).
  - intros ->. reflexivity.
  - intros Hrd d ->. simpl.
    apply Z.leb_gt in Hrd. now rewrite Hrd.
  - intros Hrd s ->. simpl.
    apply Z.leb_gt in Hrd. now rewrite Hrd.
Qed.
End Marker.

(** An [isoformat] for the example: the text is fixed, the marker only
    stores what the function returns. *)
Lemma marker_init_validates_witness :
  let iso := fun _ : datetime => "2021-01-01T00:00:00+00:00" in
  (exists e,
      ExternalTaskMarker.__init__ iso "W" "A" (ExternalTaskMarker.ArgStr "x") 0
      = Raise e
      /\ (ExternalTaskMarker.ArgStr "x" <> ExternalTaskMarker.ArgOther ->
          e = RecursionDepthNotPositive))
  /\ ExternalTaskMarker.__init__ iso "W" "A" ExternalTaskMarker.ArgOther 10
     = Raise ExecutionDateType
  /\ ExternalTaskMarker.__init__ iso "W" "A" (ExternalTaskMarker.ArgDatetime T1)
       10
     = Ok (ExternalTaskMarker.mk "W" "A" "2021-01-01T00:00:00+00:00" 10).
Proof.
  intros iso. split; [|split].
  - apply (proj1 (marker_init_validates iso "W" "A"
                    (ExternalTaskMarker.ArgStr "x") 0)). lia.
  - apply (proj1 (proj2 (marker_init_validates iso "W" "A"
                           ExternalTaskMarker.ArgOther 10))). reflexivity.
  - apply (proj1 (proj2 (proj2 (marker_init_validates iso "W" "A"
                           (ExternalTaskMarker.ArgDatetime T1) 10)))
             eq_refl T1). reflexivity.
Defined.

(** ** The existence check, once and first *)

Section ExistenceClaims.
Import ExternalTaskSensor.

Lemma init_sensor_flag (St : State.t) (kw : kwargs) (o : t) :
  __init__ St kw = Ok o ->
  _has_checked_existence o = false
  /\ check_existence o = kw_check_existence kw
  /\ external_dag_id o = kw_external_dag_id kw.
Proof.
  intros H. apply init_inv in H. destruct H as [-> _]. repeat split.
Qed.

(** C5, as the code has it.  The flag is set by a call exactly when the
    check ran in it and returned; a call runs the check at most once;
    and from the first call that leaves the flag set, no later call on
    the object runs the check or raises one of its errors.  (A check that
    raised leaves the flag as it was.) *)
Theorem existence_check_once_passed :
  (forall (o : t) (calls1 calls2 : list (Context * World)),
      _has_checked_existence (snd (poke_many o calls1)) = true ->
      existence_checks (all_queries (fst (poke_many o (calls1 ++ calls2))))
      = existence_checks (all_queries (fst (poke_many o calls1)))
      /\ not_found_raises (fst (poke_many o (calls1 ++ calls2)))
         = not_found_raises (fst (poke_many o calls1))
      /\ _has_checked_existence (snd (poke_many o (calls1 ++ calls2))) = true)
  /\ (forall (o : t) (context : Context) (w : World),
        (existence_checks (snd (call_poke o context w)) <= 1)%nat)
  /\ (forall (o : t) (context : Context) (w : World),
        _has_checked_existence o = false ->
        (_has_checked_existence (snd (fst (call_poke o context w))) = true
         <-> check_existence o = true
             /\ fst (_check_for_existence (mk_machine o (new_session w)))
                = Ok tt)).
Proof.
  split; [|split].
  - intros o calls1 calls2 Hf.
    rewrite poke_many_app. simpl.
    destruct (poke_many_checked _ calls2 Hf) as [H1 [H2 H3]].
    unfold all_queries, not_found_raises in *.
    rewrite flat_map_app, existence_checks_app, H1.
    rewrite filter_app, length_app, H2, H3.
    repeat split; auto using Nat.add_0_r.
  - intros o context w.
    destruct (check_existence o) eqn:Hc.
    + destruct (_has_checked_existence o) eqn:Hf.
      * rewrite (call_poke_checked o context w Hf). simpl.
        rewrite existence_checks_verdict_log. lia.
      * destruct (call_poke_unchecked o context w Hc Hf) as [r [_ Hp]].
        rewrite Hp. destruct r as [[]|e]; simpl.
        -- change (QFirstDagModel (external_dag_id o)
                     :: verdict_log o (poke_dttm_filter o context))
             with ([QFirstDagModel (external_dag_id o)]
                     ++ verdict_log o (poke_dttm_filter o context))%list.
           rewrite existence_checks_app, existence_checks_verdict_log.
           simpl. lia.
        -- unfold existence_checks. simpl. lia.
    + rewrite (call_poke_no_check o context w Hc). simpl.
      rewrite existence_checks_verdict_log. lia.
  - intros o context w Hf.
    destruct (check_existence o) eqn:Hc.
    + destruct (call_poke_unchecked o context w Hc Hf) as [r [Hr Hp]].
      rewrite Hp, Hr. destruct r as [[]|e]; simpl.
      * split; auto.
      * rewrite Hf. split; [discriminate | intros [_ H]; discriminate].
    + rewrite (call_poke_no_check o context w Hc). simpl. rewrite Hf.
      split; [discriminate | intros [H _]; discriminate].
Qed.

Lemma existence_check_once_passed_witness :
  let calls1 := [(context_T1, world_failed_run_deleted);
                 (context_T1, world_1_run)] in
  let calls2 := [(context_T1, world_failed_run_deleted);
                 (context_T1, world_unregistered)] in
  existence_checks
    (all_queries (fst (poke_many sensor_W_checked (calls1 ++ calls2))))
  = existence_checks (all_queries (fst (poke_many sensor_W_checked calls1)))
  /\ not_found_raises (fst (poke_many sensor_W_checked (calls1 ++ calls2)))
     = not_found_raises (fst (poke_many sensor_W_checked calls1))
  /\ _has_checked_existence
       (snd (poke_many sensor_W_checked (calls1 ++ calls2))) = true.
Proof.
  intros calls1 calls2.
  apply (proj1 existence_check_once_passed sensor_W_checked calls1 calls2).
  reflexivity.
Defined.

(** C5 as it is worded fails: two calls on the same object while [W] is
    not registered run the check twice and raise its error twice. *)
Lemma existence_check_counterexample :
  let outs := fst (poke_many sensor_W_checked
                     [(context_T1, world_unregistered);
                      (context_T1, world_unregistered)]) in
  check_existence sensor_W_checked = true
  /\ map fst outs = [Raise (DagDoesNotExist "W"); Raise (DagDoesNotExist "W")]
  /\ existence_checks (all_queries outs) = 2%nat
  /\ not_found_raises outs = 2%nat.
Proof.
  repeat split.
Qed.

(** C8.  The first call of [poke] on a sensor built with
    [check_existence = True] whose DAG has no [DagModel] row raises the
    error of the missing DAG; the only query the call has issued is the
    one of the existence check, no count query. *)
Theorem first_poke_unregistered_dag
  (St : State.t) (kw : kwargs) (o : t) (context : Context) (w : World) :
  __init__ St kw = Ok o ->
  kw_check_existence kw = true ->
  not_registered w (kw_external_dag_id kw) ->
  call_poke o context w =
  (Raise (DagDoesNotExist (kw_external_dag_id kw)), o,
   [QFirstDagModel (kw_external_dag_id kw)])
  /\ count_queries (snd (call_poke o context w)) = 0%nat.
Proof.
  intros Hinit Hc Hnr.
  destruct (init_sensor_flag St kw o Hinit) as [Hf [Hce Hid]].
  rewrite Hc in Hce. rewrite <- Hid in *.
  assert (Hp : call_poke o context w =
               (Raise (DagDoesNotExist (external_dag_id o)), o,
                [QFirstDagModel (external_dag_id o)])).
  { destruct (call_poke_unchecked o context w Hce Hf) as [r [Hr Hp]].
    rewrite (check_for_existence_not_registered
               (mk_machine o (new_session w)) Hnr) in Hr.
    injection Hr as Hr _. subst r. exact Hp. }
  rewrite Hp. split; reflexivity.
Qed.

Lemma first_poke_unregistered_dag_witness :
  call_poke sensor_W_checked context_T1 world_unregistered =
  (Raise (DagDoesNotExist "W"), sensor_W_checked, [QFirstDagModel "W"])
  /\ count_queries
       (snd (call_poke sensor_W_checked context_T1 world_unregistered))
     = 0%nat.
Proof.
  apply (first_poke_unregistered_dag example_states kwargs_W_checked
           sensor_W_checked context_T1 world_unregistered).
  - reflexivity.
  - reflexivity.
  - intros d Hd. destruct Hd.
Defined.
End ExistenceClaims.

(** * Further properties of the code *)

(** ** Lists read as sets *)

Section ListFacts.

Lemma nodup_length_le {A} (dec : forall x y : A, {x = y} + {x <> y})
  (l : list A) : (List.length (nodup dec l) <= List.length l)%nat.
Proof.
  induction l as [|a l IH]; simpl; [lia|].
  destruct (in_dec dec a l); simpl; lia.
Qed.

Lemma nodup_length_NoDup {A} (dec : forall x y : A, {x = y} + {x <> y})
  (l : list A) : List.length (nodup dec l) = List.length l <-> NoDup l.
Proof.
  split.
  - induction l as [|a l IH]; simpl; intros H; [constructor|].
    destruct (in_dec dec a l) as [Hin|Hout].
    + pose proof (nodup_length_le dec l). lia.
    + simpl in H. constructor; [assumption|]. apply IH. lia.
  - intros H. now rewrite nodup_fixed_point.
Qed.

Lemma str_in_In (x : string) (xs : list string) :
  str_in x xs = true <-> In x xs.
Proof.
  unfold str_in. rewrite existsb_exists. split.
  - intros [y [Hy Hxy]]. apply String.eqb_eq in Hxy. now subst.
  - intros H. exists x. split; [assumption | apply String.eqb_refl].
Qed.

Lemma dt_in_In (x : datetime) (xs : list datetime) :
  dt_in x xs = true <-> In x xs.
Proof.
  unfold dt_in. rewrite existsb_exists. split.
  - intros [y [Hy Hxy]]. apply Z.eqb_eq in Hxy. now subst.
  - intros H. exists x. split; [assumption | apply Z.eqb_refl].
Qed.

Lemma states_subset_spec (a b : list StateLabel) :
  states_subset a b = true <-> forall x, In x a -> In x b.
Proof.
  unfold states_subset. rewrite forallb_forall.
  split; intros H x Hx; apply state_in_In; auto.
Qed.

Lemma states_intersect_false (failed allowed : list StateLabel) :
  states_intersect failed allowed = false <->
  forall x, In x allowed -> ~ In x failed.
Proof.
  split.
  - intros H x Ha Hf.
    assert (states_intersect failed allowed = true)
      by (apply states_intersect_spec; now exists x).
    congruence.
  - intros H. destruct (states_intersect failed allowed) eqn:E; [|reflexivity].
    apply states_intersect_spec in E. destruct E as [x [Ha Hf]].
    now apply H in Ha.
Qed.

Lemma is_some_both_false {A B} (a : option A) (b : option B) :
  is_some a && is_some b = false <-> a = None \/ b = None.
Proof.
  destruct a, b; simpl; split; intros H; auto; try discriminate;
    destruct H; discriminate.
Qed.

End ListFacts.

(** ** Which arguments [ExternalTaskSensor.__init__] accepts *)

Section InitAccepts.
Import ExternalTaskSensor.
Variable St : State.t.

(** The test on duplicate task ids, in the branch that runs it. *)
Lemma init_task_ids_checked (kw : kwargs) (o : t) :
  __init__ St kw = Ok o ->
  truthy (init_task_ids kw) = true ->
  Nat.ltb (len_set (items (init_task_ids kw)))
          (List.length (items (init_task_ids kw))) = false.
Proof.
  unfold __init__, init_body.
  fold (init_allowed_states St kw). fold (init_failed_states kw).
  fold (init_task_ids kw).
  unfold bind, raise_if, raise, ret. intros H Ht. revert H. rewrite Ht.
  destruct (states_intersect _ _); simpl; [discriminate|].
  destruct (is_some (kw_external_task_id kw)
            && is_some (kw_external_task_ids kw)); simpl; [discriminate|].
  destruct (states_subset _ (State.task_states St)); simpl; [|discriminate].
  destruct (Nat.ltb _ _); simpl; [discriminate | reflexivity].
Qed.

Lemma items_not_truthy {A} (o : option (list A)) :
  truthy o = false -> items o = [].
Proof. destruct o as [[|a l]|]; simpl; congruence. Qed.

(** What [__init__] has checked when it returns. *)
Lemma init_conditions (kw : kwargs) (o : t) :
  __init__ St kw = Ok o ->
  (forall x, In x (init_allowed_states St kw) ->
             ~ In x (init_failed_states kw))
  /\ (kw_external_task_id kw = None \/ kw_external_task_ids kw = None)
  /\ (forall x, In x (init_allowed_states St kw)
                \/ In x (init_failed_states kw) ->
                In x (if truthy (init_task_ids kw)
                      then State.task_states St else State.dag_states St))
  /\ NoDup (items (init_task_ids kw))
  /\ (kw_execution_delta kw = None \/ kw_execution_date_fn kw = None).
Proof.
  intros Ho.
  pose proof (init_task_ids_checked kw o Ho) as Hdup.
  apply init_inv in Ho.
  destruct Ho as [_ [Hdis [Hids [Hsub Hdate]]]].
  repeat split.
  - now apply states_intersect_false.
  - now apply is_some_both_false.
  - intros x Hx. rewrite states_subset_spec in Hsub.
    apply Hsub. apply in_or_app. exact Hx.
  - destruct (truthy (init_task_ids kw)) eqn:Ht.
    + apply (nodup_length_NoDup string_dec).
      specialize (Hdup eq_refl). apply Nat.ltb_ge in Hdup.
      pose proof (nodup_length_le string_dec (items (init_task_ids kw))).
      unfold len_set in Hdup. lia.
    + rewrite (items_not_truthy _ Ht). constructor.
  - now apply is_some_both_false.
Qed.

(** X1.  [__init__] returns a sensor exactly for the arguments in which the
    allowed and the failed states (after the defaults) share no state, at
    most one of [external_task_id] and [external_task_ids] is given, every
    state belongs to the vocabulary of the mode (task states when a task is
    named, DAG states otherwise), no task id is listed twice, and at most one
    of [execution_delta] and [execution_date_fn] is given. *)
Theorem init_returns_iff (kw : kwargs) :
  (exists o, __init__ St kw = Ok o) <->
  (forall x, In x (init_allowed_states St kw) ->
             ~ In x (init_failed_states kw))
  /\ (kw_external_task_id kw = None \/ kw_external_task_ids kw = None)
  /\ (forall x, In x (init_allowed_states St kw)
                \/ In x (init_failed_states kw) ->
                In x (if truthy (init_task_ids kw)
                      then State.task_states St else State.dag_states St))
  /\ NoDup (items (init_task_ids kw))
  /\ (kw_execution_delta kw = None \/ kw_execution_date_fn kw = None).
Proof.
  split.
  - intros [o Ho]. exact (init_conditions kw o Ho).
  - intros [Hdis [Hids [Hsub [Hnd Hdate]]]].
    apply states_intersect_false in Hdis.
    apply is_some_both_false in Hids. apply is_some_both_false in Hdate.
    assert (Hsub' : states_subset
                      (init_allowed_states St kw ++ init_failed_states kw)%list
                      (if truthy (init_task_ids kw)
                       then State.task_states St else State.dag_states St)
                    = true).
    { apply states_subset_spec. intros x Hx. apply Hsub.
      now apply in_app_or. }
    apply (nodup_length_NoDup string_dec) in Hnd.
    unfold __init__, init_body.
    fold (init_allowed_states St kw). fold (init_failed_states kw).
    fold (init_task_ids kw).
    unfold bind, raise_if, raise, ret.
    rewrite Hdis. simpl. rewrite Hids. simpl.
    destruct (truthy (init_task_ids kw)).
    + rewrite Hsub'. simpl. unfold len_set. rewrite Hnd, Nat.ltb_irrefl. simpl.
      rewrite Hdate. simpl. eexists. reflexivity.
    + rewrite Hsub'. simpl. rewrite Hdate. simpl. eexists. reflexivity.
Qed.

(** X2.  The sensor [__init__] returns lists no task id twice, and a single
    [external_task_id] has become the one-element list of it. *)
Theorem init_task_ids_distinct (kw : kwargs) (o : t) :
  __init__ St kw = Ok o ->
  NoDup (items (external_task_ids o))
  /\ (forall task_id, kw_external_task_id kw = Some task_id ->
                      external_task_ids o = Some [task_id]).
Proof.
  intros Ho.
  destruct (init_conditions kw o Ho) as [_ [_ [_ [Hnd _]]]].
  apply init_inv in Ho. destruct Ho as [-> _]. simpl. split.
  - exact Hnd.
  - intros task_id Ht. unfold init_task_ids. now rewrite Ht.
Qed.

(** X3.  The sensor [__init__] returns stores the default
    [[State.SUCCESS]] when [allowed_states] is [None] and the empty list when
    [failed_states] is [None]; a non-empty collection is stored as the list
    of its elements; and each of its allowed and failed states belongs to
    the task states when it names tasks and to the DAG states when it does
    not. *)
Theorem init_states_valid (kw : kwargs) (o : t) :
  __init__ St kw = Ok o ->
  (kw_allowed_states kw = None -> allowed_states o = [State.SUCCESS St])
  /\ (kw_failed_states kw = None -> failed_states o = [])
  /\ (forall x l, kw_allowed_states kw = Some (x :: l) ->
                  allowed_states o = x :: l)
  /\ (forall x l, kw_failed_states kw = Some (x :: l) ->
                  failed_states o = x :: l)
  /\ (forall x, In x (allowed_states o) \/ In x (failed_states o) ->
                In x (if truthy (external_task_ids o)
                      then State.task_states St else State.dag_states St)).
Proof.
  intros Ho.
  destruct (init_conditions kw o Ho) as [_ [_ [Hsub _]]].
  apply init_inv in Ho. destruct Ho as [-> _]. simpl.
  unfold init_allowed_states, init_failed_states in *.
  repeat split.
  - intros H. now rewrite H.
  - intros H. now rewrite H.
  - intros x l H. now rewrite H.
  - intros x l H. now rewrite H.
  - exact Hsub.
Qed.

End InitAccepts.

Lemma init_returns_iff_witness :
  exists o, ExternalTaskSensor.__init__ example_states kwargs_AB = Ok o.
Proof.
  apply (proj2 (init_returns_iff example_states kwargs_AB)).
  repeat split.
  - intros x [<-|[]] [].
  - now left.
  - intros x [[<-|[]]|[]]. simpl. auto.
  - repeat constructor; simpl; intuition discriminate.
  - now left.
Defined.

Lemma init_task_ids_distinct_witness :
  NoDup (items (ExternalTaskSensor.external_task_ids sensor_A))
  /\ (forall task_id,
        ExternalTaskSensor.kw_external_task_id
          (with_task_ids None kwargs_A_and_empty) = Some task_id ->
        ExternalTaskSensor.external_task_ids sensor_A = Some [task_id]).
Proof.
  apply (init_task_ids_distinct example_states
           (with_task_ids None kwargs_A_and_empty) sensor_A).
  reflexivity.
Defined.

Lemma init_states_valid_witness :
  (ExternalTaskSensor.kw_allowed_states kwargs_W_checked = None ->
   ExternalTaskSensor.allowed_states sensor_W_checked
   = [State.SUCCESS example_states])
  /\ (ExternalTaskSensor.kw_failed_states kwargs_W_checked = None ->
      ExternalTaskSensor.failed_states sensor_W_checked = [])
  /\ (forall x l,
        ExternalTaskSensor.kw_allowed_states kwargs_W_checked = Some (x :: l) ->
        ExternalTaskSensor.allowed_states sensor_W_checked = x :: l)
  /\ (forall x l,
        ExternalTaskSensor.kw_failed_states kwargs_W_checked = Some (x :: l) ->
        ExternalTaskSensor.failed_states sensor_W_checked = x :: l)
  /\ (forall x,
        In x (ExternalTaskSensor.allowed_states sensor_W_checked)
        \/ In x (ExternalTaskSensor.failed_states sensor_W_checked) ->
        In x (if truthy (ExternalTaskSensor.external_task_ids sensor_W_checked)
              then State.task_states example_states
              else State.dag_states example_states)).
Proof.
  apply (init_states_valid example_states kwargs_W_checked sensor_W_checked).
  reflexivity.
Defined.

(** ** What a call of [poke] touches *)

Section PokeFootprint.
Import ExternalTaskSensor.

Lemma count_queries_count_log (o : t) (d : list datetime)
  (st : list StateLabel) :
  (count_queries (count_log o d st) <= 1)%nat
  /\ (d = [] -> count_log o d st = [])
  /\ (forall q, In q (count_log o d st) -> query_dag_id q = external_dag_id o).
Proof.
  unfold count_log. destruct d as [|x d].
  - repeat split; simpl; auto; contradiction.
  - destruct (truthy (external_task_ids o)); repeat split; simpl; auto;
      try discriminate; intros q [<-|[]]; reflexivity.
Qed.

(** X4.  A call of [poke] leaves the database as it is and only adds to the
    queries of the session; of the object it changes nothing but the flag
    [_has_checked_existence], which it can set and never resets: an object
    whose flag is set, or that does not ask for the check, comes back as it
    was. *)
Theorem poke_only_sets_flag (context : Context) (m : machine) :
  db (session (snd (poke context m))) = db (session m)
  /\ (exists qs, issued (session (snd (poke context m)))
                 = (issued (session m) ++ qs)%list)
  /\ (self (snd (poke context m)) = self m
      \/ self (snd (poke context m))
         = with_has_checked_existence true (self m))
  /\ (check_existence (self m) = false
      \/ _has_checked_existence (self m) = true ->
      self (snd (poke context m)) = self m).
Proof.
  rewrite poke_run.
  destruct (existence_gate_run m) as [r [qs [Hg [Hqs [Hoff _]]]]].
  rewrite Hg.
  assert (Hself : check_existence (self m) = false
                  \/ _has_checked_existence (self m) = true ->
                  check_existence (self m)
                  && negb (_has_checked_existence (self m)) = false).
  { intros [H|H]; rewrite H; [reflexivity | apply andb_false_r]. }
  destruct r as [[]|e]; simpl.
  - repeat split.
    + eexists. rewrite <- app_assoc. reflexivity.
    + destruct (check_existence (self m)
                && negb (_has_checked_existence (self m))); auto.
    + intros H. now rewrite (Hself H).
  - repeat split; eauto.
Qed.

(** X5.  The queries of one call of [poke]: all of them are about the
    external DAG of the sensor; at most two are count queries, at most one
    when no failed state is configured, and none when there is no target. *)
Theorem poke_query_budget (o : t) (context : Context) (w : World) :
  (forall q, In q (snd (call_poke o context w)) ->
             query_dag_id q = external_dag_id o)
  /\ (count_queries (snd (call_poke o context w)) <= 2)%nat
  /\ (failed_states o = [] ->
      (count_queries (snd (call_poke o context w)) <= 1)%nat)
  /\ (poke_dttm_filter o context = [] ->
      count_queries (snd (call_poke o context w)) = 0%nat).
Proof.
  rewrite call_poke_run.
  destruct (existence_gate_run (mk_machine o (new_session w)))
    as [r [qs [Hg [Hqs _]]]].
  cbn [self] in Hg, Hqs. rewrite Hg. cbn [self session issued new_session].
  assert (Hq : (forall q, In q qs -> query_dag_id q = external_dag_id o)
               /\ count_queries qs = 0%nat).
  { subst qs. destruct (check_existence o && negb (_has_checked_existence o));
      split; simpl; auto; try contradiction.
    intros q [<-|[]]. reflexivity. }
  destruct Hq as [Hq1 Hq2].
  destruct (count_queries_count_log o (poke_dttm_filter o context)
              (allowed_states o)) as [Ha1 [Ha2 Ha3]].
  destruct (count_queries_count_log o (poke_dttm_filter o context)
              (failed_states o)) as [Hf1 [Hf2 Hf3]].
  assert (Hv : (count_queries (verdict_log o (poke_dttm_filter o context))
                <= 2)%nat
               /\ (failed_states o = [] ->
                   (count_queries (verdict_log o (poke_dttm_filter o context))
                    <= 1)%nat)
               /\ (poke_dttm_filter o context = [] ->
                   count_queries (verdict_log o (poke_dttm_filter o context))
                   = 0%nat)
               /\ (forall q,
                     In q (verdict_log o (poke_dttm_filter o context)) ->
                     query_dag_id q = external_dag_id o)).
  { unfold verdict_log. rewrite count_queries_app.
    destruct (failed_states o) as [|f fs].
    - change (count_queries []) with 0%nat. repeat split.
      + lia.
      + intros _. lia.
      + intros He. now rewrite (Ha2 He).
      + intros q Hin. apply in_app_or in Hin.
        destruct Hin as [Hin|[]]. auto.
    - repeat split.
      + lia.
      + discriminate.
      + intros He. now rewrite (Ha2 He), (Hf2 He).
      + intros q Hin. apply in_app_or in Hin. destruct Hin; auto. }
  destruct Hv as [Hv1 [Hv2 [Hv3 Hv4]]].
  destruct r as [[]|e]; simpl.
  - rewrite count_queries_app, Hq2. repeat split; auto.
    intros q Hin. apply in_app_or in Hin. destruct Hin; auto.
  - rewrite Hq2. repeat split; auto; lia.
Qed.

(** X6.  A sensor without failed states never raises the failure of the
    dependency, whatever the rows and the targets are. *)
Theorem poke_never_fails_without_failed_states
  (context : Context) (m : machine) (e : exn) :
  failed_states (self m) = [] ->
  fst (poke context m) = Raise e ->
  is_dependency_failed e = false /\ from_existence_check e = true.
Proof.
  intros Hnf. rewrite poke_run.
  destruct (existence_gate_run m) as [r [qs [Hg [_ [_ Hr]]]]].
  rewrite Hg. destruct r as [[]|e']; simpl.
  - unfold verdict. rewrite Hnf.
    destruct (Qeq_bool (inject_Z (-1)) _) eqn:Hq; [|discriminate].
    apply Qeq_bool_iff in Hq. unfold len_Q in Hq.
    apply (proj1 (inject_Z_injective _ _)) in Hq. lia.
  - intros H. injection H as ->. simpl in Hr.
    split; [|exact Hr]. destruct e; simpl in *; congruence.
Qed.

(** X7.  With failed states configured and no target at all, [poke] raises
    the failure of the dependency as soon as the existence check does not
    raise: the count 0 of the failed states equals the number of targets. *)
Theorem poke_no_targets_with_failed_states
  (context : Context) (m : machine) :
  poke_dttm_filter (self m) context = [] ->
  failed_states (self m) <> [] ->
  existence_passes m ->
  fst (poke context m) = Raise (failed_exn (self m)).
Proof.
  intros Ht Hf Hpass.
  destruct (existence_passes_gate m Hpass) as [m1 Hg].
  rewrite poke_run, Hg. simpl. unfold verdict. rewrite Ht.
  destruct (failed_states (self m)); [congruence | reflexivity].
Qed.

End PokeFootprint.

(** ** Counting rows that have unique keys *)

Section UniqueKeys.
Context {R K : Type} (key : R -> K).

Lemma NoDup_map_filter (f : R -> bool) (rows : list R) :
  NoDup (map key rows) -> NoDup (map key (filter f rows)).
Proof.
  induction rows as [|r rows IH]; simpl; intros H; [constructor|].
  apply NoDup_cons_iff in H. destruct H as [Hr Hrows].
  destruct (f r); simpl; [|now apply IH].
  constructor; [|now apply IH].
  intros Hin. apply Hr. apply in_map_iff in Hin.
  destruct Hin as [x [Hx Hin]]. apply filter_In in Hin.
  apply in_map_iff. exists x. tauto.
Qed.

Lemma NoDup_map_key_inj (rows : list R) (r r' : R) :
  NoDup (map key rows) -> In r rows -> In r' rows -> key r = key r' -> r = r'.
Proof.
  induction rows as [|x rows IH]; simpl; intros H Hr Hr' Hk; [contradiction|].
  apply NoDup_cons_iff in H. destruct H as [Hx Hrows].
  destruct Hr as [->|Hr], Hr' as [->|Hr']; auto.
  - exfalso. apply Hx. rewrite Hk. now apply in_map.
  - exfalso. apply Hx. rewrite <- Hk. now apply in_map.
Qed.

(** The rows a filter keeps are at most as many as the keys it lets
    through. *)
Lemma filter_length_le_keys (f : R -> bool) (rows : list R) (T : list K) :
  NoDup (map key rows) ->
  (forall r, In r rows -> f r = true -> In (key r) T) ->
  (List.length (filter f rows) <= List.length T)%nat.
Proof.
  intros Hu Hin. rewrite <- (length_map key).
  apply NoDup_incl_length; [now apply NoDup_map_filter|].
  intros k Hk. apply in_map_iff in Hk. destruct Hk as [r [<- Hr]].
  apply filter_In in Hr. now apply Hin.
Qed.

(** They are as many exactly when every key has its row. *)
Lemma filter_length_eq_keys (f : R -> bool) (rows : list R) (T : list K) :
  NoDup (map key rows) ->
  NoDup T ->
  (forall r, In r rows -> f r = true -> In (key r) T) ->
  (List.length (filter f rows) = List.length T <->
   forall k, In k T -> exists r, In r rows /\ f r = true /\ key r = k).
Proof.
  intros Hu HT Hin.
  assert (Hnd : NoDup (map key (filter f rows))) by now apply NoDup_map_filter.
  assert (Hincl : incl (map key (filter f rows)) T).
  { intros k Hk. apply in_map_iff in Hk. destruct Hk as [r [<- Hr]].
    apply filter_In in Hr. now apply Hin. }
  rewrite <- (length_map key). split.
  - intros Hlen k Hk.
    assert (Hk' : In k (map key (filter f rows))).
    { revert k Hk. apply NoDup_length_incl; auto. lia. }
    apply in_map_iff in Hk'. destruct Hk' as [r [Hr Hfr]].
    apply filter_In in Hfr. exists r. tauto.
  - intros Hall. apply Nat.le_antisymm.
    + now apply NoDup_incl_length.
    + apply NoDup_incl_length; [assumption|].
      intros k Hk. destruct (Hall k Hk) as [r [Hr [Hf <-]]].
      apply in_map. now apply filter_In.
Qed.

End UniqueKeys.

Section Products.

Lemma NoDup_map_inj {A B} (f : A -> B) (l : list A) :
  (forall x y, f x = f y -> x = y) -> NoDup l -> NoDup (map f l).
Proof.
  intros Hinj. induction 1 as [|x l Hx Hl IH]; simpl; constructor; auto.
  intros Hin. apply in_map_iff in Hin. destruct Hin as [y [Hy Hin]].
  apply Hinj in Hy. now subst.
Qed.

Lemma NoDup_list_prod {A B} (l : list A) (l' : list B) :
  NoDup l -> NoDup l' -> NoDup (list_prod l l').
Proof.
  intros Hl Hl'. induction Hl as [|a l Ha Hl IH]; simpl; [constructor|].
  apply NoDup_app; [| assumption |].
  - apply NoDup_map_inj; [|assumption]. intros x y H. now injection H.
  - intros [x y] Hin Hin'. apply in_map_iff in Hin.
    destruct Hin as [z [Hz _]]. injection Hz as <- _.
    apply in_prod_iff in Hin'. tauto.
Qed.

Lemma nodup_length_lt {A} (dec : forall x y : A, {x = y} + {x <> y})
  (l : list A) :
  ~ NoDup l -> (List.length (nodup dec l) < List.length l)%nat.
Proof.
  intros H. pose proof (nodup_length_le dec l) as Hle.
  destruct (Nat.eq_dec (List.length (nodup dec l)) (List.length l)) as [E|E];
    [|lia].
  apply nodup_length_NoDup in E. contradiction.
Qed.

(** [a / n] against an integer, for a positive [n]. *)
Lemma Qdiv_inject_Z_eq (a n k : Z) :
  0 < n -> (inject_Z a / inject_Z n == inject_Z k)%Q <-> a = k * n.
Proof.
  intros Hn. destruct n as [|p|p]; try lia.
  unfold Qeq, Qdiv, Qmult, Qinv, inject_Z. simpl.
  rewrite !Z.mul_1_r. reflexivity.
Qed.

Lemma Qdiv_inject_Z_le (a n k : Z) :
  0 < n -> (inject_Z a / inject_Z n <= inject_Z k)%Q <-> a <= k * n.
Proof.
  intros Hn. destruct n as [|p|p]; try lia.
  unfold Qle, Qdiv, Qmult, Qinv, inject_Z. simpl.
  rewrite !Z.mul_1_r. reflexivity.
Qed.

Lemma sql_state_in_spec (st : StateLabel) (states : list StateLabel) :
  sql_state_in st states = true <-> st <> None /\ In st states.
Proof.
  unfold sql_state_in. destruct st as [x|].
  - rewrite state_in_In. split; [split; [discriminate | assumption] | tauto].
  - split; [discriminate | intros [H _]; congruence].
Qed.

End Products.

(** ** The counts against the rows *)

Section CountsAndRows.
Import ExternalTaskSensor.

Lemma dr_matches_spec (dag_id : string) (states : list StateLabel)
  (dates : list datetime) (r : DagRun) :
  dr_matches dag_id states dates r = true <->
  dr_dag_id r = dag_id
  /\ (dr_state r <> None /\ In (dr_state r) states)
  /\ In (dr_execution_date r) dates.
Proof.
  unfold dr_matches. rewrite !andb_true_iff, String.eqb_eq,
    sql_state_in_spec, dt_in_In. tauto.
Qed.

Lemma ti_matches_spec (dag_id : string) (task_ids : list string)
  (states : list StateLabel) (dates : list datetime) (r : TaskInstance) :
  ti_matches dag_id task_ids states dates r = true <->
  ti_dag_id r = dag_id
  /\ In (ti_task_id r) task_ids
  /\ (ti_state r <> None /\ In (ti_state r) states)
  /\ In (ti_execution_date r) dates.
Proof.
  unfold ti_matches. rewrite !andb_true_iff, String.eqb_eq, str_in_In,
    sql_state_in_spec, dt_in_In. tauto.
Qed.

Lemma pair_inj {A B} (a : A) (x y : B) : (a, x) = (a, y) -> x = y.
Proof. intros H. now injection H. Qed.

(** [DagRun] rows: at most one per distinct date, and one per date exactly
    when every date has its run in one of the states. *)
Lemma matching_dr_le (w : World) (dag_id : string)
  (states : list StateLabel) (dates : list datetime) :
  NoDup (map dr_key (dag_runs w)) ->
  matching_dr w dag_id states dates
  <= Z.of_nat (List.length (nodup Z.eq_dec dates)).
Proof.
  intros Hu. unfold matching_dr. apply inj_le.
  rewrite <- (length_map (pair dag_id) (nodup Z.eq_dec dates)).
  apply (filter_length_le_keys dr_key); [assumption|].
  intros r _ Hm. apply dr_matches_spec in Hm. destruct Hm as [Hd [_ Hin]].
  apply in_map_iff. exists (dr_execution_date r). split.
  - unfold dr_key. now rewrite Hd.
  - now apply nodup_In.
Qed.

Lemma matching_dr_eq_iff (w : World) (dag_id : string)
  (states : list StateLabel) (dates : list datetime) :
  NoDup (map dr_key (dag_runs w)) ->
  NoDup dates ->
  (matching_dr w dag_id states dates = Z.of_nat (List.length dates) <->
   forall d, In d dates -> run_in_states w dag_id states d).
Proof.
  intros Hu Hd. unfold matching_dr.
  rewrite Nat2Z.inj_iff, <- (length_map (pair dag_id) dates).
  rewrite (filter_length_eq_keys dr_key).
  - split.
    + intros H d Hin.
      destruct (H (dag_id, d)) as [r [Hr [Hm Hk]]]; [now apply in_map|].
      apply dr_matches_spec in Hm. exists r. tauto.
    + intros H k Hk. apply in_map_iff in Hk. destruct Hk as [d [<- Hin]].
      destruct (H d Hin) as [r [Hr [Hk [Hs1 Hs2]]]].
      exists r. repeat split; auto.
      apply dr_matches_spec. unfold dr_key in Hk. injection Hk as Hk1 Hk2.
      subst d. tauto.
  - assumption.
  - apply NoDup_map_inj; [apply pair_inj | assumption].
  - intros r _ Hm. apply dr_matches_spec in Hm. destruct Hm as [Hdag [_ Hin]].
    apply in_map_iff. exists (dr_execution_date r). split; auto.
    unfold dr_key. now rewrite Hdag.
Qed.

(** [TaskInstance] rows: at most one per task id and distinct date. *)
Lemma matching_ti_le (w : World) (dag_id : string) (task_ids : list string)
  (states : list StateLabel) (dates : list datetime) :
  NoDup (map ti_key (task_instances w)) ->
  matching_ti w dag_id task_ids states dates
  <= Z.of_nat (List.length (nodup Z.eq_dec dates))
     * Z.of_nat (List.length task_ids).
Proof.
  intros Hu. unfold matching_ti.
  rewrite <- Nat2Z.inj_mul, Nat.mul_comm, <- length_prod. apply inj_le.
  rewrite <- (length_map (pair dag_id)
                (list_prod task_ids (nodup Z.eq_dec dates))).
  apply (filter_length_le_keys ti_key); [assumption|].
  intros r _ Hm. apply ti_matches_spec in Hm.
  destruct Hm as [Hd [Hid [_ Hin]]].
  apply in_map_iff. exists (ti_task_id r, ti_execution_date r). split.
  - unfold ti_key. now rewrite Hd.
  - apply in_prod_iff. split; [assumption | now apply nodup_In].
Qed.

Lemma matching_ti_eq_iff (w : World) (dag_id : string)
  (task_ids : list string) (states : list StateLabel)
  (dates : list datetime) :
  NoDup (map ti_key (task_instances w)) ->
  NoDup task_ids ->
  NoDup dates ->
  (matching_ti w dag_id task_ids states dates
   = Z.of_nat (List.length dates) * Z.of_nat (List.length task_ids) <->
   forall d, In d dates ->
   forall task_id, In task_id task_ids ->
                   task_in_states w dag_id states task_id d).
Proof.
  intros Hu Hi Hd. unfold matching_ti.
  rewrite <- Nat2Z.inj_mul, Nat.mul_comm, <- length_prod, Nat2Z.inj_iff.
  rewrite <- (length_map (pair dag_id) (list_prod task_ids dates)).
  rewrite (filter_length_eq_keys ti_key).
  - split.
    + intros H d Hin task_id Hid.
      destruct (H (dag_id, (task_id, d))) as [r [Hr [Hm Hk]]].
      { apply in_map. now apply in_prod_iff. }
      apply ti_matches_spec in Hm. exists r. tauto.
    + intros H k Hk. apply in_map_iff in Hk.
      destruct Hk as [[task_id d] [<- Hin]]. apply in_prod_iff in Hin.
      destruct Hin as [Hid Hin].
      destruct (H d Hin task_id Hid) as [r [Hr [Hk [Hs1 Hs2]]]].
      exists r. repeat split; auto.
      apply ti_matches_spec. unfold ti_key in Hk.
      injection Hk as Hk1 Hk2 Hk3. subst. tauto.
  - assumption.
  - apply NoDup_map_inj; [apply pair_inj | now apply NoDup_list_prod].
  - intros r _ Hm. apply ti_matches_spec in Hm.
    destruct Hm as [Hdag [Hid [_ Hin]]].
    apply in_map_iff. exists (ti_task_id r, ti_execution_date r). split.
    + unfold ti_key. now rewrite Hdag.
    + now apply in_prod_iff.
Qed.

Lemma truthy_length_pos {A} (o : option (list A)) :
  truthy o = true -> 0 < Z.of_nat (List.length (items o)).
Proof. destruct o as [[|a l]|]; simpl; intros H; try discriminate; lia. Qed.

(** The value of [get_count] is at most the number of distinct targets. *)
Lemma count_value_le (o : t) (w : World) (dttm_filter : list datetime)
  (states : list StateLabel) :
  unique_rows w ->
  (count_value o w dttm_filter states
   <= inject_Z (Z.of_nat (List.length (nodup Z.eq_dec dttm_filter))))%Q.
Proof.
  intros [Hdr Hti]. unfold count_value.
  destruct dttm_filter as [|d ds] eqn:E; [apply Qle_refl|]. rewrite <- E.
  destruct (truthy (external_task_ids o)) eqn:Ht.
  - apply Qdiv_inject_Z_le; [now apply truthy_length_pos|].
    now apply matching_ti_le.
  - rewrite <- Zle_Qle. now apply matching_dr_le.
Qed.

(** It equals the number of targets exactly when every target is in one of
    the states. *)
Lemma count_value_eq_iff (o : t) (w : World) (dttm_filter : list datetime)
  (states : list StateLabel) :
  unique_rows w ->
  NoDup dttm_filter ->
  NoDup (items (external_task_ids o)) ->
  ((count_value o w dttm_filter states == len_Q dttm_filter)%Q <->
   all_targets_in_states o w states dttm_filter).
Proof.
  intros [Hdr Hti] Hd Hi.
  unfold count_value, all_targets_in_states, target_in_states, len_Q.
  destruct dttm_filter as [|d ds] eqn:E.
  - split; [intros _ x [] | reflexivity].
  - rewrite <- E in *. clear E d ds.
    destruct (truthy (external_task_ids o)) eqn:Ht.
    + rewrite Qdiv_inject_Z_eq by now apply truthy_length_pos.
      now apply matching_ti_eq_iff.
    + rewrite inject_Z_injective. now apply matching_dr_eq_iff.
Qed.

(** With a date listed twice the count stays below the number of
    targets. *)
Lemma count_value_duplicate_dates (o : t) (w : World)
  (dttm_filter : list datetime) (states : list StateLabel) :
  unique_rows w ->
  ~ NoDup dttm_filter ->
  ~ (count_value o w dttm_filter states == len_Q dttm_filter)%Q.
Proof.
  intros Hu Hd Heq.
  pose proof (count_value_le o w dttm_filter states Hu) as Hle.
  rewrite Heq in Hle. unfold len_Q in Hle. rewrite <- Zle_Qle in Hle.
  pose proof (nodup_length_lt Z.eq_dec dttm_filter Hd) as Hlt.
  apply Nat2Z.inj_le in Hle.
  exact (Nat.lt_irrefl _ (Nat.lt_le_trans _ _ _ Hlt Hle)).
Qed.

End CountsAndRows.

(** ** The verdict of [poke] against the rows *)

Section VerdictAndRows.
Import ExternalTaskSensor.

Lemma get_count_value (o : t) (s : Session) (dttm_filter : list datetime)
  (states : list StateLabel) (c : Q) :
  fst (get_count dttm_filter states (mk_machine o s)) = Ok c ->
  c = count_value o (db s) dttm_filter states.
Proof. rewrite get_count_run. simpl. congruence. Qed.

(** X8.  When the tables hold one row per key, the targets are distinct and
    so are the task ids, the count [get_count] returns is at most the number
    of targets, and it equals that number exactly when, at every target,
    every configured task (the run of the DAG when no task is configured)
    has a row whose state is one of the states. *)
Theorem get_count_reaches_targets_iff
  (o : t) (s : Session) (dttm_filter : list datetime)
  (states : list StateLabel) (c : Q) :
  fst (get_count dttm_filter states (mk_machine o s)) = Ok c ->
  unique_rows (db s) ->
  NoDup dttm_filter ->
  NoDup (items (external_task_ids o)) ->
  (c <= inject_Z (Z.of_nat (List.length dttm_filter)))%Q
  /\ ((c == inject_Z (Z.of_nat (List.length dttm_filter)))%Q <->
      all_targets_in_states o (db s) states dttm_filter).
Proof.
  intros Hc Hu Hd Hi. apply get_count_value in Hc. subst c. split.
  - pose proof (count_value_le o (db s) dttm_filter states Hu) as Hle.
    now rewrite (nodup_fixed_point Z.eq_dec Hd) in Hle.
  - now apply count_value_eq_iff.
Qed.

(** The three outcomes of lines 171-186, read off the rows. *)
Lemma verdict_by_rows (o : t) (w : World) (dttm_filter : list datetime) :
  unique_rows w ->
  NoDup dttm_filter ->
  NoDup (items (external_task_ids o)) ->
  (verdict o w dttm_filter = Raise (failed_exn o) <->
   failed_states o <> []
   /\ all_targets_in_states o w (failed_states o) dttm_filter)
  /\ (verdict o w dttm_filter = Ok true <->
      all_targets_in_states o w (allowed_states o) dttm_filter
      /\ ~ (failed_states o <> []
            /\ all_targets_in_states o w (failed_states o) dttm_filter))
  /\ (verdict o w dttm_filter = Ok false <->
      ~ all_targets_in_states o w (allowed_states o) dttm_filter
      /\ ~ (failed_states o <> []
            /\ all_targets_in_states o w (failed_states o) dttm_filter)).
Proof.
  intros Hu Hd Hi.
  pose proof (count_value_eq_iff o w dttm_filter (allowed_states o) Hu Hd Hi)
    as HA.
  pose proof (count_value_eq_iff o w dttm_filter (failed_states o) Hu Hd Hi)
    as HF.
  rewrite <- Qeq_bool_iff in HA, HF.
  unfold verdict.
  assert (HF' : Qeq_bool
                  match failed_states o with
                  | [] => inject_Z (-1)
                  | _ :: _ => count_value o w dttm_filter (failed_states o)
                  end (len_Q dttm_filter) = true <->
                failed_states o <> []
                /\ all_targets_in_states o w (failed_states o) dttm_filter).
  { destruct (failed_states o) as [|f fs] eqn:E.
    - split; [|intros [H _]; congruence].
      intros Hq. apply Qeq_bool_iff in Hq. unfold len_Q in Hq.
      apply (proj1 (inject_Z_injective _ _)) in Hq. lia.
    - rewrite HF. split; [intros H; split; [discriminate | exact H] | tauto]. }
  destruct (Qeq_bool match failed_states o with
                     | [] => inject_Z (-1)
                     | _ :: _ => count_value o w dttm_filter (failed_states o)
                     end (len_Q dttm_filter)).
  - assert (HFt : failed_states o <> []
                  /\ all_targets_in_states o w (failed_states o) dttm_filter)
      by now apply HF'.
    repeat split; try discriminate; try tauto.
  - assert (HFf : ~ (failed_states o <> []
                     /\ all_targets_in_states o w (failed_states o)
                                              dttm_filter))
      by (intros H; apply HF' in H; discriminate).
    destruct (Qeq_bool (count_value o w dttm_filter (allowed_states o))
                       (len_Q dttm_filter)).
    + assert (all_targets_in_states o w (allowed_states o) dttm_filter)
        by now apply HA.
      repeat split; try discriminate; try tauto.
    + assert (~ all_targets_in_states o w (allowed_states o) dttm_filter)
        by (intros H; apply HA in H; discriminate).
      repeat split; try discriminate; try tauto.
Qed.

Lemma poke_verdict (context : Context) (m : machine) :
  existence_passes m ->
  fst (poke context m)
  = verdict (self m) (db (session m)) (poke_dttm_filter (self m) context).
Proof.
  intros Hpass. destruct (existence_passes_gate m Hpass) as [m1 Hg].
  now rewrite poke_run, Hg.
Qed.

(** X9.  In a call where the existence check does not raise, with one row
    per key, distinct targets and distinct task ids: [poke] raises the
    failure exactly when failed states are configured and every target is
    in one of them; otherwise it returns [true] exactly when every target
    is in an allowed state, and [false] when one is not. *)
Theorem poke_outcome_by_rows (context : Context) (m : machine) :
  existence_passes m ->
  unique_rows (db (session m)) ->
  NoDup (poke_dttm_filter (self m) context) ->
  NoDup (items (external_task_ids (self m))) ->
  (fst (poke context m) = Raise (failed_exn (self m)) <->
   failed_states (self m) <> []
   /\ all_targets_in_states (self m) (db (session m))
        (failed_states (self m)) (poke_dttm_filter (self m) context))
  /\ (fst (poke context m) = Ok true <->
      all_targets_in_states (self m) (db (session m))
        (allowed_states (self m)) (poke_dttm_filter (self m) context)
      /\ ~ (failed_states (self m) <> []
            /\ all_targets_in_states (self m) (db (session m))
                 (failed_states (self m))
                 (poke_dttm_filter (self m) context)))
  /\ (fst (poke context m) = Ok false <->
      ~ all_targets_in_states (self m) (db (session m))
          (allowed_states (self m)) (poke_dttm_filter (self m) context)
      /\ ~ (failed_states (self m) <> []
            /\ all_targets_in_states (self m) (db (session m))
                 (failed_states (self m))
                 (poke_dttm_filter (self m) context))).
Proof.
  intros Hpass Hu Hd Hi. rewrite (poke_verdict context m Hpass).
  now apply verdict_by_rows.
Qed.

(** X10.  When the targets list a date twice and the tables hold one row
    per key, no count can reach the number of targets: in every call where
    the existence check does not raise, [poke] returns [false]. *)
Theorem poke_duplicate_dates_pending (context : Context) (m : machine) :
  existence_passes m ->
  unique_rows (db (session m)) ->
  ~ NoDup (poke_dttm_filter (self m) context) ->
  fst (poke context m) = Ok false.
Proof.
  intros Hpass Hu Hd. rewrite (poke_verdict context m Hpass). unfold verdict.
  assert (HF : Qeq_bool
                 match failed_states (self m) with
                 | [] => inject_Z (-1)
                 | _ :: _ =>
                     count_value (self m) (db (session m))
                       (poke_dttm_filter (self m) context)
                       (failed_states (self m))
                 end (len_Q (poke_dttm_filter (self m) context)) = false).
  { destruct (Qeq_bool _ _) eqn:Hq; [|reflexivity]. exfalso.
    apply Qeq_bool_iff in Hq. destruct (failed_states (self m)).
    - unfold len_Q in Hq. apply (proj1 (inject_Z_injective _ _)) in Hq. lia.
    - now apply count_value_duplicate_dates in Hq. }
  rewrite HF. cbv beta iota. f_equal.
  apply not_true_is_false. intros Hq.
  apply Qeq_bool_iff in Hq. now apply count_value_duplicate_dates in Hq.
Qed.

(** Two disjoint lists of states cannot both hold every target. *)
Lemma not_both_states (o : t) (w : World) (dttm_filter : list datetime) :
  unique_rows w ->
  dttm_filter <> [] ->
  (forall x, In x (allowed_states o) -> ~ In x (failed_states o)) ->
  all_targets_in_states o w (allowed_states o) dttm_filter ->
  all_targets_in_states o w (failed_states o) dttm_filter ->
  False.
Proof.
  intros [Hdr Hti] Hne Hdis HA HF.
  destruct dttm_filter as [|d ds]; [congruence|].
  specialize (HA d (or_introl eq_refl)). specialize (HF d (or_introl eq_refl)).
  unfold target_in_states in *.
  destruct (external_task_ids o) as [[|i ids]|]; simpl in *.
  - destruct HA as [r [Hr [Hk [_ Hs]]]]. destruct HF as [r' [Hr' [Hk' [_ Hs']]]].
    assert (r = r') by (apply (NoDup_map_key_inj dr_key (dag_runs w));
                        auto; congruence).
    subst r'. now apply (Hdis _ Hs).
  - destruct (HA i (or_introl eq_refl)) as [r [Hr [Hk [_ Hs]]]].
    destruct (HF i (or_introl eq_refl)) as [r' [Hr' [Hk' [_ Hs']]]].
    assert (r = r') by (apply (NoDup_map_key_inj ti_key (task_instances w));
                        auto; congruence).
    subst r'. now apply (Hdis _ Hs).
  - destruct HA as [r [Hr [Hk [_ Hs]]]]. destruct HF as [r' [Hr' [Hk' [_ Hs']]]].
    assert (r = r') by (apply (NoDup_map_key_inj dr_key (dag_runs w));
                        auto; congruence).
    subst r'. now apply (Hdis _ Hs).
Qed.

(** X11.  For a sensor whose allowed and failed states are disjoint and
    whose task ids are distinct (what [__init__] guarantees), with one row
    per key and distinct targets, at least one: in a call where the
    existence check does not raise, [poke] returns [true] exactly when
    every configured task (the run of the DAG when none is configured) is
    in an allowed state at every target. *)
Theorem poke_true_iff_all_targets_allowed (context : Context) (m : machine) :
  existence_passes m ->
  unique_rows (db (session m)) ->
  NoDup (poke_dttm_filter (self m) context) ->
  poke_dttm_filter (self m) context <> [] ->
  NoDup (items (external_task_ids (self m))) ->
  (forall x, In x (allowed_states (self m)) ->
             ~ In x (failed_states (self m))) ->
  (fst (poke context m) = Ok true <->
   all_targets_in_states (self m) (db (session m))
     (allowed_states (self m)) (poke_dttm_filter (self m) context)).
Proof.
  intros Hpass Hu Hd Hne Hi Hdis. rewrite (poke_verdict context m Hpass).
  destruct (verdict_by_rows (self m) (db (session m))
              (poke_dttm_filter (self m) context) Hu Hd Hi) as [_ [Ht _]].
  rewrite Ht. split; [tauto|].
  intros HA. split; [assumption|]. intros [_ HF].
  exact (not_both_states _ _ _ Hu Hne Hdis HA HF).
Qed.

End VerdictAndRows.

(** ** What the existence check accepts *)

Section ExistenceOutcome.
Import ExternalTaskSensor.

Lemma check_tasks_exist_ok (dag_id : string) (dag_tasks : option (list string))
  (ids : list string) (m : machine) :
  fst (check_tasks_exist dag_id dag_tasks ids m) = Ok tt <->
  ids = [] \/ exists tasks, dag_tasks = Some tasks
                            /\ forall i, In i ids -> In i tasks.
Proof.
  induction ids as [|i ids IH]; simpl.
  - split; auto.
  - destruct dag_tasks as [tasks|].
    + unfold bind, raise_if.
      destruct (str_in i tasks) eqn:Hi; simpl.
      * rewrite IH. apply str_in_In in Hi. split.
        -- intros [->|[t [Ht Hall]]].
           ++ right. exists tasks. split; [reflexivity|].
              intros j [<-|[]]. assumption.
           ++ injection Ht as <-. right. exists tasks.
              split; [reflexivity|]. intros j [<-|Hj]; auto.
        -- intros [H|[t [Ht Hall]]]; [discriminate|].
           right. exists t. split; auto.
      * split; [discriminate|]. intros [H|[t [Ht Hall]]]; [discriminate|].
        injection Ht as <-.
        assert (str_in i tasks = true) by (apply str_in_In; auto).
        congruence.
    + split; [discriminate|]. intros [H|[t [Ht _]]]; discriminate.
Qed.

Lemma check_tasks_exist_missing (dag_id : string)
  (dag_tasks : option (list string)) (ids : list string) (m : machine)
  (task_id dag_id' : string) :
  fst (check_tasks_exist dag_id dag_tasks ids m)
  = Raise (TaskDoesNotExist task_id dag_id') ->
  dag_id' = dag_id
  /\ exists tasks before after,
       dag_tasks = Some tasks
       /\ ids = (before ++ task_id :: after)%list
       /\ (forall i, In i before -> In i tasks)
       /\ ~ In task_id tasks.
Proof.
  induction ids as [|i ids IH]; simpl; [discriminate|].
  destruct dag_tasks as [tasks|]; [|discriminate].
  unfold bind, raise_if.
  destruct (str_in i tasks) eqn:Hi; simpl.
  - intros H. destruct (IH H) as [-> [t [before [after [Ht [-> [Hb Hn]]]]]]].
    injection Ht as <-. split; [reflexivity|].
    exists tasks, (i :: before), after. repeat split; auto.
    intros j [<-|Hj]; [now apply str_in_In | auto].
  - intros H. injection H as <- <-. split; [reflexivity|].
    exists tasks, [], ids. repeat split; auto.
    + intros j [].
    + intros Hin. apply str_in_In in Hin. congruence.
Qed.

(** The body of [_check_for_existence] after the query, on the machine
    the query leaves. *)
Lemma check_for_existence_unfold (m : machine) :
  fst (_check_for_existence m) =
  match find (fun d => String.eqb (dm_dag_id d) (external_dag_id (self m)))
             (dag_models (db (session m))) with
  | None => Raise (DagDoesNotExist (external_dag_id (self m)))
  | Some d =>
      if negb (path_exists (db (session m)) (fileloc d))
      then Raise (DagWasDeleted (external_dag_id (self m)))
      else if truthy (external_task_ids (self m)) then
        fst (check_tasks_exist (external_dag_id (self m))
               (dagbag_get_dag (db (session m)) (fileloc d)
                               (external_dag_id (self m)))
               (items (external_task_ids (self m)))
               (mk_machine (self m)
                  (record_query (QFirstDagModel (external_dag_id (self m)))
                                (session m))))
      else Ok tt
  end.
Proof.
  destruct m as [o s].
  unfold _check_for_existence, bind at 1, get. simpl.
  unfold bind at 1, with_session, query_first_dag_model. simpl.
  destruct (find _ _) as [d|]; [|reflexivity].
  unfold bind at 1, raise_if.
  destruct (negb (path_exists (db s) (fileloc d))); simpl; [reflexivity|].
  unfold bind at 1.
  destruct (truthy (external_task_ids o)); [|reflexivity].
  match goal with
  | |- context [check_tasks_exist ?a ?b ?c ?mm] =>
      destruct (check_tasks_exist_run a b c mm) as [r [Hr _]]; rewrite Hr
  end.
  simpl. now destruct r as [[]|e].
Qed.

(** X12.  The existence check returns exactly when the first [DagModel]
    row of the DAG exists, the file it names exists and, when task ids are
    configured, the DAG read again from that file is found and has every
    configured task. *)
Theorem check_for_existence_passes_iff (m : machine) :
  fst (_check_for_existence m) = Ok tt <->
  exists d,
    find (fun d => String.eqb (dm_dag_id d) (external_dag_id (self m)))
         (dag_models (db (session m))) = Some d
    /\ path_exists (db (session m)) (fileloc d) = true
    /\ (truthy (external_task_ids (self m)) = true ->
        exists tasks,
          dagbag_get_dag (db (session m)) (fileloc d)
                         (external_dag_id (self m)) = Some tasks
          /\ forall i, In i (items (external_task_ids (self m))) ->
                       In i tasks).
Proof.
  rewrite check_for_existence_unfold.
  destruct (find _ _) as [d|].
  - destruct (path_exists (db (session m)) (fileloc d)) eqn:Hp; simpl.
    + destruct (truthy (external_task_ids (self m))) eqn:Ht.
      * rewrite check_tasks_exist_ok. split.
        -- intros [He|Hall].
           ++ apply truthy_items in Ht. contradiction.
           ++ exists d. repeat split; auto.
        -- intros [d' [Hd [_ Hall]]]. injection Hd as <-. right. auto.
      * split; [|reflexivity]. intros _. exists d.
        repeat split; auto. discriminate.
    + split; [discriminate|]. intros [d' [Hd [Hp' _]]].
      injection Hd as <-. congruence.
  - split; [discriminate|]. intros [d [Hd _]]. discriminate.
Qed.

(** X13.  When the existence check raises for a task, the task is the
    first of the configured ids that the DAG read from the file does not
    have, and the DAG named is the external DAG of the sensor. *)
Theorem check_for_existence_first_missing_task
  (m : machine) (task_id dag_id : string) :
  fst (_check_for_existence m) = Raise (TaskDoesNotExist task_id dag_id) ->
  dag_id = external_dag_id (self m)
  /\ exists d tasks before after,
       find (fun d => String.eqb (dm_dag_id d) (external_dag_id (self m)))
            (dag_models (db (session m))) = Some d
       /\ dagbag_get_dag (db (session m)) (fileloc d)
                         (external_dag_id (self m)) = Some tasks
       /\ items (external_task_ids (self m))
          = (before ++ task_id :: after)%list
       /\ (forall i, In i before -> In i tasks)
       /\ ~ In task_id tasks.
Proof.
  rewrite check_for_existence_unfold.
  destruct (find _ _) as [d|]; [|discriminate].
  destruct (negb (path_exists (db (session m)) (fileloc d))); [discriminate|].
  destruct (truthy (external_task_ids (self m))); [|discriminate].
  intros H. apply check_tasks_exist_missing in H.
  destruct H as [-> [tasks [before [after [Ht [Hi [Hb Hn]]]]]]].
  split; [reflexivity|].
  exists d, tasks, before, after. repeat split; auto.
Qed.

End ExistenceOutcome.

(** ** The cached field set of the marker *)

Section SerializedFields.
Import ExternalTaskMarker.

Lemma get_serialized_fields_hit (fs super_fields : list string) :
  fs <> [] ->
  get_serialized_fields super_fields (Some fs) = (Ok (Some fs), Some fs).
Proof.
  intros Hne. unfold get_serialized_fields, bind, get. simpl.
  destruct fs; [congruence | reflexivity].
Qed.

Lemma get_serialized_fields_calls_hit (fs : list string)
  (supers : list (list string)) :
  fs <> [] ->
  get_serialized_fields_calls supers (Some fs)
  = (Ok (map (fun _ => Some fs) supers), Some fs).
Proof.
  intros Hne. induction supers as [|p supers IH]; simpl; [reflexivity|].
  unfold bind at 1. rewrite (get_serialized_fields_hit fs p Hne).
  unfold bind at 1. rewrite IH. reflexivity.
Qed.

(** X14.  Starting from the class as it is defined (no cached set), every
    call of [get_serialized_fields] returns the same set: the fields the
    parent class gave at the first call together with ["recursion_depth"].
    What the parent class answers at later calls is not looked at. *)
Theorem get_serialized_fields_cached
  (first : list string) (later : list (list string)) :
  let fields : list string :=
    ListSet.set_union string_dec first ["recursion_depth"] in
  get_serialized_fields_calls (first :: later) initial___serialized_fields
  = (Ok (map (fun _ => Some fields) (first :: later)), Some fields)
  /\ (forall x, In x fields <-> In x first \/ x = "recursion_depth").
Proof.
  intros fields.
  assert (Hin : forall x, In x fields <-> In x first \/ x = "recursion_depth").
  { intros x. unfold fields. rewrite ListSet.set_union_iff. simpl.
    intuition congruence. }
  assert (Hne : fields <> []).
  { intros He. assert (H : In "recursion_depth" fields) by (apply Hin; auto).
    rewrite He in H. destruct H. }
  split; [|exact Hin].
  simpl. unfold bind at 1.
  assert (H1 : get_serialized_fields first initial___serialized_fields
               = (Ok (Some fields), Some fields)) by reflexivity.
  rewrite H1. unfold bind at 1.
  rewrite (get_serialized_fields_calls_hit fields later Hne). reflexivity.
Qed.

End SerializedFields.

(** ** The keyword arguments of the date function *)

Section DateFnKwargs.
Context {V : Type}.

Lemma dict_get_set {B} (k k' : string) (v : B) (d : list (string * B)) :
  dict_get k (dict_set k' v d)
  = if String.eqb k' k then Some v else dict_get k d.
Proof.
  induction d as [|[k0 v0] d IH]; simpl.
  - reflexivity.
  - destruct (String.eqb k0 k') eqn:E0; simpl.
    + apply String.eqb_eq in E0. subst k0.
      now destruct (String.eqb k' k).
    + destruct (String.eqb k0 k) eqn:E1.
      * apply String.eqb_eq in E1. subst k0. now rewrite String.eqb_sym, E0.
      * exact IH.
Qed.

Lemma dict_get_map_filter {B} (f : V -> B) (p : string -> bool) (k : string)
  (d : list (string * V)) :
  dict_get k (map (fun kv => (fst kv, f (snd kv)))
                  (filter (fun kv => p (fst kv)) d))
  = if p k then option_map f (dict_get k d) else None.
Proof.
  induction d as [|[k0 v0] d IH]; simpl.
  - now destruct (p k).
  - destruct (p k0) eqn:Ep; simpl.
    + destruct (String.eqb k0 k) eqn:E.
      * apply String.eqb_eq in E. subst k0. now rewrite Ep.
      * exact IH.
    + rewrite IH. destruct (String.eqb k0 k) eqn:E; [|reflexivity].
      apply String.eqb_eq in E. subst k0. now rewrite Ep.
Qed.

(** X15.  The keyword arguments built for the date function: under
    ["context"] the whole context; nothing under ["execution_date"] and
    ["logical_date"]; under every other key what the context has there. *)
Theorem handle_execution_date_fn_kwargs_lookup
  (context : list (string * V)) (k : string) :
  dict_get k (handle_execution_date_fn_kwargs context)
  = if String.eqb "context" k then Some (KwContext context)
    else if str_in k ["execution_date"; "logical_date"] then None
    else option_map KwValue (dict_get k context).
Proof.
  unfold handle_execution_date_fn_kwargs.
  rewrite dict_get_set.
  destruct (String.eqb "context" k); [reflexivity|].
  rewrite (dict_get_map_filter KwValue
             (fun k => negb (str_in k ["execution_date"; "logical_date"]))).
  now destruct (str_in k ["execution_date"; "logical_date"]).
Qed.

End DateFnKwargs.

(** ** Repeating a call *)

Section Repeat.
Import ExternalTaskSensor.

Lemma verdict_flag (b : bool) (o : t) (w : World) (d : list datetime) :
  verdict (with_has_checked_existence b o) w d = verdict o w d.
Proof. reflexivity. Qed.

(** X16.  Repeating a call of [poke] with the same context on an unchanged
    database gives the same outcome as the call before, and the object
    does not change any more. *)
Theorem poke_repeat_stable (o : t) (context : Context) (w : World) :
  let o' := snd (fst (call_poke o context w)) in
  fst (fst (call_poke o' context w)) = fst (fst (call_poke o context w))
  /\ snd (fst (call_poke o' context w)) = o'.
Proof.
  destruct (check_existence o) eqn:Hc.
  - destruct (_has_checked_existence o) eqn:Hf.
    + rewrite (call_poke_checked o context w Hf). simpl.
      rewrite (call_poke_checked o context w Hf). simpl. auto.
    + destruct (call_poke_unchecked o context w Hc Hf) as [r [_ Hp]].
      rewrite Hp. destruct r as [[]|e]; simpl.
      * rewrite call_poke_checked by reflexivity. simpl. auto.
      * rewrite Hp. simpl. auto.
  - rewrite (call_poke_no_check o context w Hc). simpl.
    rewrite (call_poke_no_check o context w Hc). simpl. auto.
Qed.

End Repeat.

(** ** Instances of the properties above *)

Section Instances.
Import ExternalTaskSensor.

Ltac distinct_rows :=
  cbv;
  repeat (apply NoDup_cons;
          [simpl;
           intuition (try discriminate;
                      try match goal with
                          | H : _ = _ |- _ => injection H; intros; discriminate
                          end)
          |]);
  apply NoDup_nil.

Lemma unique_rows_world_4_rows : unique_rows world_4_rows.
Proof. split; distinct_rows. Defined.

Lemma two_targets_distinct : NoDup [T1; T2].
Proof. distinct_rows. Defined.

Lemma ids_AB_distinct : NoDup ["A"; "B"].
Proof. distinct_rows. Defined.

Lemma no_check_passes (o : t) (s : Session) :
  check_existence o = false -> existence_passes (mk_machine o s).
Proof. intros Hc H. simpl in H. congruence. Defined.

Lemma poke_never_fails_without_failed_states_witness :
  is_dependency_failed (DagDoesNotExist "W") = false
  /\ from_existence_check (DagDoesNotExist "W") = true.
Proof.
  apply (poke_never_fails_without_failed_states context_T1
           (mk_machine sensor_W_check_only (new_session world_unregistered))).
  - reflexivity.
  - reflexivity.
Defined.

Lemma poke_no_targets_with_failed_states_witness :
  fst (poke context_T1
         (mk_machine sensor_W_failed_no_dates (new_session world_1_run)))
  = Raise (ExternalDagFailed "W").
Proof.
  apply (poke_no_targets_with_failed_states context_T1
           (mk_machine sensor_W_failed_no_dates (new_session world_1_run))).
  - reflexivity.
  - discriminate.
  - now apply no_check_passes.
Defined.

Lemma get_count_reaches_targets_iff_witness :
  ((inject_Z 4 / inject_Z 2)%Q <= inject_Z (Z.of_nat (List.length [T1; T2])))%Q
  /\ (((inject_Z 4 / inject_Z 2)%Q
       == inject_Z (Z.of_nat (List.length [T1; T2])))%Q <->
      all_targets_in_states sensor_AB world_4_rows [Some "success"] [T1; T2]).
Proof.
  apply (get_count_reaches_targets_iff sensor_AB (new_session world_4_rows)
           [T1; T2] [Some "success"] (inject_Z 4 / inject_Z 2)%Q).
  - reflexivity.
  - exact unique_rows_world_4_rows.
  - exact two_targets_distinct.
  - exact ids_AB_distinct.
Defined.

Lemma poke_outcome_by_rows_witness :
  let m := mk_machine sensor_AB (new_session world_4_rows) in
  (fst (poke context_T1 m) = Raise (failed_exn sensor_AB) <->
   failed_states sensor_AB <> []
   /\ all_targets_in_states sensor_AB world_4_rows
        (failed_states sensor_AB) [T1; T2])
  /\ (fst (poke context_T1 m) = Ok true <->
      all_targets_in_states sensor_AB world_4_rows
        (allowed_states sensor_AB) [T1; T2]
      /\ ~ (failed_states sensor_AB <> []
            /\ all_targets_in_states sensor_AB world_4_rows
                 (failed_states sensor_AB) [T1; T2]))
  /\ (fst (poke context_T1 m) = Ok false <->
      ~ all_targets_in_states sensor_AB world_4_rows
          (allowed_states sensor_AB) [T1; T2]
      /\ ~ (failed_states sensor_AB <> []
            /\ all_targets_in_states sensor_AB world_4_rows
                 (failed_states sensor_AB) [T1; T2])).
Proof.
  apply (poke_outcome_by_rows context_T1
           (mk_machine sensor_AB (new_session world_4_rows))).
  - now apply no_check_passes.
  - exact unique_rows_world_4_rows.
  - exact two_targets_distinct.
  - exact ids_AB_distinct.
Defined.

Lemma poke_duplicate_dates_pending_witness :
  fst (poke context_T1 (mk_machine sensor_AB_twice (new_session world_4_rows)))
  = Ok false.
Proof.
  apply (poke_duplicate_dates_pending context_T1
           (mk_machine sensor_AB_twice (new_session world_4_rows))).
  - now apply no_check_passes.
  - exact unique_rows_world_4_rows.
  - intros H. apply NoDup_cons_iff in H. destruct H as [H _].
    apply H. left. reflexivity.
Defined.

Lemma poke_true_iff_all_targets_allowed_witness :
  fst (poke context_T1 (mk_machine sensor_AB (new_session world_4_rows)))
  = Ok true <->
  all_targets_in_states sensor_AB world_4_rows (allowed_states sensor_AB)
                        [T1; T2].
Proof.
  apply (poke_true_iff_all_targets_allowed context_T1
           (mk_machine sensor_AB (new_session world_4_rows))).
  - now apply no_check_passes.
  - exact unique_rows_world_4_rows.
  - exact two_targets_distinct.
  - discriminate.
  - exact ids_AB_distinct.
  - intros x _ [].
Defined.

Lemma check_for_existence_passes_iff_witness :
  fst (_check_for_existence
         (mk_machine sensor_AB_checked (new_session world_W_with_AB))) = Ok tt.
Proof.
  apply (proj2 (check_for_existence_passes_iff
                  (mk_machine sensor_AB_checked
                              (new_session world_W_with_AB)))).
  exists (mkDagModel "W" "/dags/w.py"). repeat split.
  intros _. exists ["B"; "A"]. split; [reflexivity|].
  simpl. intuition.
Defined.

Lemma check_for_existence_first_missing_task_witness :
  "W" = external_dag_id sensor_AB_checked
  /\ exists d tasks before after,
       find (fun d => String.eqb (dm_dag_id d)
                                 (external_dag_id sensor_AB_checked))
            (dag_models world_W_without_B) = Some d
       /\ dagbag_get_dag world_W_without_B (fileloc d)
                         (external_dag_id sensor_AB_checked) = Some tasks
       /\ items (external_task_ids sensor_AB_checked)
          = (before ++ "B" :: after)%list
       /\ (forall i, In i before -> In i tasks)
       /\ ~ In "B" tasks.
Proof.
  apply (check_for_existence_first_missing_task
           (mk_machine sensor_AB_checked (new_session world_W_without_B))
           "B" "W").
  reflexivity.
Defined.

End Instances.

(** ** The number [get_count] returns *)

Section TrueDivision.
Import ExternalTaskSensor.

Lemma counts_filter {R : Type} (P : R -> Prop) (f : R -> bool)
  (rows : list R) :
  (forall r, f r = true <-> P r) ->
  counts P rows (List.length (filter f rows)).
Proof.
  intros Hf. induction rows as [|r rows IH]; simpl; [constructor|].
  destruct (f r) eqn:E; simpl.
  - apply counts_in; [now apply Hf | assumption].
  - apply counts_out; [|assumption].
    intros HP. apply Hf in HP. congruence.
Qed.

Lemma counts_functional {R : Type} (P : R -> Prop) (rows : list R)
  (n n' : nat) :
  counts P rows n -> counts P rows n' -> n = n'.
Proof.
  intros H. revert n'. induction H as [|r rows n HP H IH|r rows n HP H IH];
    intros n' H'; inversion H'; subst; auto; contradiction.
Qed.

Lemma get_count_number_run (dttm_filter : list datetime)
  (states : list StateLabel) (m : machine) :
  get_count_number dttm_filter states m =
  (Ok (match dttm_filter with
       | [] => PyInt 0
       | _ :: _ =>
           if truthy (external_task_ids (self m)) then
             PyFloat
               (py_true_div
                  (matching_ti (db (session m)) (external_dag_id (self m))
                     (items (external_task_ids (self m))) states dttm_filter)
                  (Z.of_nat
                     (List.length (items (external_task_ids (self m))))))
           else
             PyInt (matching_dr (db (session m)) (external_dag_id (self m))
                      states dttm_filter)
       end),
   mk_machine (self m)
     (mkSession (db (session m))
        (issued (session m) ++ count_log (self m) dttm_filter states)%list)).
Proof.
  destruct m as [o [w qs]].
  unfold get_count_number, count_log, bind, get, with_session, ret.
  destruct dttm_filter as [|d ds]; simpl.
  - now rewrite app_nil_r.
  - destruct (truthy (external_task_ids o)); reflexivity.
Qed.

(** C3, as the code has it.  With task ids configured, the number
    [get_count] returns is the result of Python's true division of the
    number of rows of [TaskInstance] that belong to the DAG, whose task is
    one of the ids, whose state is not NULL and is one of the states and
    whose date is one of the targets, by the number of ids: a double, the
    quotient rounded to binary64 (the int 0, and no query, when there is no
    target); [get_count] of the model is the exact quotient of the same two
    numbers and leaves the same session.  With the two ids [A], [B] and the
    two targets [T1], [T2], among rows that do not count: four matching
    rows give the double 2.0, equal to 2, and [poke] returns [true]; three
    give 1.5, not equal to 2, and [poke] returns [false]. *)
Theorem get_count_true_division :
  (forall (o : t) (s : Session) (ids : list string)
          (dttm_filter : list datetime) (states : list StateLabel),
      external_task_ids o = Some ids ->
      ids <> [] ->
      exists (raw : nat) (m' : machine),
        counts (ti_counted (external_dag_id o) ids states dttm_filter)
               (task_instances (db s)) raw
        /\ get_count_number dttm_filter states (mk_machine o s)
           = (Ok (match dttm_filter with
                  | [] => PyInt 0
                  | _ :: _ =>
                      PyFloat (py_true_div (Z.of_nat raw)
                                           (Z.of_nat (List.length ids)))
                  end), m')
        /\ (dttm_filter = [] -> raw = 0%nat /\ issued (session m') = issued s)
        /\ exists q,
             get_count dttm_filter states (mk_machine o s) = (Ok q, m')
             /\ (q == inject_Z (Z.of_nat raw)
                      / inject_Z (Z.of_nat (List.length ids)))%Q)
  /\ (counts (ti_counted "W" ["A"; "B"] [Some "success"] [T1; T2])
             (task_instances world_4_among_others) 4
      /\ fst (get_count_number [T1; T2] [Some "success"]
                (mk_machine sensor_AB (new_session world_4_among_others)))
         = Ok (PyFloat (py_true_div 4 2))
      /\ float_value (py_true_div 4 2) = Some (4503599627370496 # 2251799813685248)
      /\ (4503599627370496 # 2251799813685248 == 2)%Q
      /\ py_eq_int (PyFloat (py_true_div 4 2)) 2 = true
      /\ fst (poke context_T1
                (mk_machine sensor_AB (new_session world_4_among_others)))
         = Ok true)
  /\ (counts (ti_counted "W" ["A"; "B"] [Some "success"] [T1; T2])
             (task_instances world_3_among_others) 3
      /\ fst (get_count_number [T1; T2] [Some "success"]
                (mk_machine sensor_AB (new_session world_3_among_others)))
         = Ok (PyFloat (py_true_div 3 2))
      /\ float_value (py_true_div 3 2) = Some (6755399441055744 # 4503599627370496)
      /\ (6755399441055744 # 4503599627370496 == 3 # 2)%Q
      /\ py_eq_int (PyFloat (py_true_div 3 2)) 2 = false
      /\ fst (poke context_T1
                (mk_machine sensor_AB (new_session world_3_among_others)))
         = Ok false).
Proof.
  split; [|split].
  - intros o s ids dttm_filter states Hids Hne.
    exists (List.length
              (filter (ti_matches (external_dag_id o) ids states dttm_filter)
                      (task_instances (db s)))).
    exists (mk_machine o
              (mkSession (db s)
                 (issued s ++ count_log o dttm_filter states)%list)).
    assert (Ht : truthy (external_task_ids o) = true)
      by (rewrite Hids; destruct ids; [congruence | reflexivity]).
    split; [|split; [|split]].
    + apply counts_filter. intros r. apply ti_matches_spec.
    + rewrite get_count_number_run. cbn [self session db issued].
      rewrite Ht, Hids. reflexivity.
    + intros ->. split; [|apply app_nil_r].
      rewrite filter_false; [reflexivity|].
      intros r. unfold ti_matches. simpl. apply andb_false_r.
    + eexists. split; [apply get_count_run|].
      cbn [self session db]. unfold count_value. rewrite Ht, Hids. simpl.
      destruct dttm_filter as [|d ds]; [|reflexivity].
      rewrite filter_false.
      * unfold Qdiv. now rewrite Qmult_0_l.
      * intros r. unfold ti_matches. simpl. apply andb_false_r.
  - split.
    + change 4%nat with
        (List.length
           (filter (ti_matches "W" ["A"; "B"] [Some "success"] [T1; T2])
                   (task_instances world_4_among_others))).
      apply counts_filter. intros r. apply ti_matches_spec.
    + repeat split.
  - split.
    + change 3%nat with
        (List.length
           (filter (ti_matches "W" ["A"; "B"] [Some "success"] [T1; T2])
                   (task_instances world_3_among_others))).
      apply counts_filter. intros r. apply ti_matches_spec.
    + repeat split.
Qed.

Lemma get_count_true_division_witness :
  exists (raw : nat) (m' : machine),
    counts (ti_counted "W" ["A"; "B"; "C"] [Some "success"] [T1])
           (task_instances world_1_of_3) raw
    /\ get_count_number [T1] [Some "success"]
         (mk_machine sensor_ABC (new_session world_1_of_3))
       = (Ok (PyFloat (py_true_div (Z.of_nat raw)
                                   (Z.of_nat (List.length ["A"; "B"; "C"])))),
          m')
    /\ ([T1] = [] -> raw = 0%nat
                     /\ issued (session m')
                        = issued (new_session world_1_of_3))
    /\ exists q,
         get_count [T1] [Some "success"]
                   (mk_machine sensor_ABC (new_session world_1_of_3))
         = (Ok q, m')
         /\ (q == inject_Z (Z.of_nat raw)
                  / inject_Z (Z.of_nat (List.length ["A"; "B"; "C"])))%Q.
Proof.
  apply (proj1 get_count_true_division sensor_ABC
           (new_session world_1_of_3) ["A"; "B"; "C"] [T1] [Some "success"]).
  - reflexivity.
  - discriminate.
Defined.

(** C3 as it is worded fails: one matching row and three ids.  The number
    returned is the double next to one third, 6004799503160661 / 2^54,
    which is not the quotient 1/3. *)
Lemma get_count_exact_division_counterexample :
  external_task_ids sensor_ABC = Some ["A"; "B"; "C"]
  /\ counts (ti_counted "W" ["A"; "B"; "C"] [Some "success"] [T1])
            (task_instances world_1_of_3) 1
  /\ fst (get_count_number [T1] [Some "success"]
            (mk_machine sensor_ABC (new_session world_1_of_3)))
     = Ok (PyFloat (SpecFloat.S754_finite false 6004799503160661 (-54)))
  /\ float_value (SpecFloat.S754_finite false 6004799503160661 (-54))
     = Some (6004799503160661 # 18014398509481984)
  /\ ~ (6004799503160661 # 18014398509481984 == inject_Z 1 / inject_Z 3)%Q.
Proof.
  split; [reflexivity|]. split.
  - change 1%nat with
      (List.length
         (filter (ti_matches "W" ["A"; "B"; "C"] [Some "success"] [T1])
                 (task_instances world_1_of_3))).
    apply counts_filter. intros r. apply ti_matches_spec.
  - repeat split. discriminate.
Qed.

End TrueDivision.
